(** * JobMate ML API: a shallow embedding of [main.py]

    The service is a thin Flask application around pre-trained artifacts.
    This development embeds the logic that lives in the repository itself:
    the text normalizer [basic_preprocess], the [check_auth] gate, the
    request validation and result shaping of [recommend_jobs], the
    category lister and the job lookup.

    Conventions.
    - A Python [str] is a sequence of Unicode code points: [pystr] is
      [list N]. String literals of the source are written [py "..."].
    - A finite Python [float] is the rational number it denotes ([Q]);
      [nan] is a separate constructor where it can occur.
    - Library functions whose tables are not part of the repository
      ([str.lower], [numpy.argsort], [round], ...) are section variables;
      what the proofs need from them is stated as a hypothesis. *)

From Stdlib Require Import NArith ZArith QArith Qround Ascii String.
From Stdlib Require Import DecimalString.
From stdpp Require Import base gmap list sorting strings.

Local Open Scope N_scope.
Set Warnings "-register-all".

(** ** Python strings *)

Abbreviation pystr := (list N).

Fixpoint py (s : string) : pystr :=
  match s with
  | EmptyString => []
  | String a s' => N_of_ascii a :: py s'
  end.

#[global] Arguments py : simpl never.

(** The code points for which [Py_UNICODE_ISSPACE] holds. Both the [\s]
    class of [re] on [str] patterns and [str.strip()] use this predicate. *)
Definition is_space (c : N) : bool :=
  ((9 <=? c) && (c <=? 13)) || ((28 <=? c) && (c <=? 32))
  || (c =? 133) || (c =? 160) || (c =? 5760)
  || ((8192 <=? c) && (c <=? 8202))
  || (c =? 8232) || (c =? 8233) || (c =? 8239) || (c =? 8287)
  || (c =? 12288).

(** The range [a-z] of a character class without flags. *)
Definition is_az (c : N) : bool := (97 <=? c) && (c <=? 122).

Definition SPACE : N := 32.

(** ** The text normalizer *)

(** [re.sub(r'[^a-z\s]', '', text)]: every character outside the class
    is deleted. *)
Definition sub_non_az_ws (text : pystr) : pystr :=
  List.filter (fun c => is_az c || is_space c) text.

(** [re.sub(r'\s+', ' ', text)]: every maximal run of whitespace is
    replaced by one U+0020. [in_run] tells that the previous character
    belonged to the run being replaced. *)
Fixpoint sub_ws_runs_from (in_run : bool) (text : pystr) : pystr :=
  match text with
  | [] => []
  | c :: rest =>
      if is_space c
      then (if in_run then sub_ws_runs_from true rest
            else SPACE :: sub_ws_runs_from true rest)
      else c :: sub_ws_runs_from false rest
  end.

Definition sub_ws_runs (text : pystr) : pystr := sub_ws_runs_from false text.

(** [str.strip()] without argument. *)
Fixpoint lstrip (text : pystr) : pystr :=
  match text with
  | [] => []
  | c :: rest => if is_space c then lstrip rest else text
  end.

Definition rstrip (text : pystr) : pystr := reverse (lstrip (reverse text)).

Definition strip (text : pystr) : pystr := rstrip (lstrip text).

Section Normalizer.

(** [str.lower]: the Unicode lower-casing of CPython (a table with a
    context rule for the final sigma). *)
Variable lower : pystr -> pystr.

Definition basic_preprocess (text : pystr) : pystr :=
  let text := lower text in
  let text := sub_non_az_ws text in
  let text := strip (sub_ws_runs text) in
  text.

End Normalizer.

(** ASCII lower-casing, the restriction of [str.lower] to code points
    below 128; used to run the definitions on concrete inputs. *)
Definition ascii_lower (text : pystr) : pystr :=
  List.map (fun c => if (65 <=? c) && (c <=? 90) then c + 32 else c) text.

(** *** The words of the specification

    "trim leading/trailing space": only U+0020 is removed. *)
Fixpoint trim_left_space (text : pystr) : pystr :=
  match text with
  | [] => []
  | c :: rest => if c =? SPACE then trim_left_space rest else text
  end.

Definition trim_space (text : pystr) : pystr :=
  reverse (trim_left_space (reverse (trim_left_space text))).

(** The shape the specification promises: only [a-z] and U+0020, no two
    U+0020 in a row, none at either end. *)
Definition az_or_space (c : N) : Prop := is_az c = true \/ c = SPACE.

Fixpoint no_double_space (text : pystr) : Prop :=
  match text with
  | a :: (b :: _) as rest => ~ (a = SPACE /\ b = SPACE) /\ no_double_space rest
  | _ => True
  end.

Definition normal_form (text : pystr) : Prop :=
  Forall az_or_space text
  /\ no_double_space text
  /\ head text <> Some SPACE
  /\ last text <> Some SPACE.

(** ** Python values

    The objects that travel through the handlers: what [request.get_json()]
    returns, the cells of the metadata table, and what [jsonify] is given. *)

Inductive value : Type :=
| VNone
| VBool (b : bool)
| VInt (z : Z)
| VFloat (q : Q)
| VNaN
| VStr (s : pystr)
| VList (l : list value)
| VDict (d : list (pystr * value)).

Inductive exn : Type :=
| TypeError | AttributeError | KeyError | IndexError | ValueError.

(** A computation that may raise. *)
Definition res (A : Type) : Type := exn + A.

#[global] Instance res_ret : MRet res := fun A a => inr a.

#[global] Instance res_bind : MBind res := fun A B k m =>
  match m with
  | inl e => inl e
  | inr a => k a
  end.

Definition raise {A} (e : exn) : res A := inl e.

Fixpoint res_map {A B} (f : A -> res B) (l : list A) : res (list B) :=
  match l with
  | [] => mret []
  | a :: l' => b ← f a; bs ← res_map f l'; mret (b :: bs)
  end.

(** *** Dictionaries: items in insertion order, keys distinct *)

Fixpoint dict_get {V} (k : pystr) (d : list (pystr * V)) : option V :=
  match d with
  | [] => None
  | (k', v) :: d' => if decide (k = k') then Some v else dict_get k d'
  end.

Fixpoint dict_set {V} (k : pystr) (v : V) (d : list (pystr * V))
  : list (pystr * V) :=
  match d with
  | [] => [(k, v)]
  | (k', v') :: d' =>
      if decide (k = k') then (k, v) :: d' else (k', v') :: dict_set k v d'
  end.

(** [dict(items)]: a later item replaces an earlier one with its key. *)
Definition py_dict {V} (items : list (pystr * V)) : list (pystr * V) :=
  foldl (fun d kv => dict_set kv.1 kv.2 d) [] items.

(** *** Operators of the language *)

(** [bool(v)], as used by [not v]. *)
Definition truthy (v : value) : bool :=
  match v with
  | VNone => false
  | VBool b => b
  | VInt z => negb (z =? 0)%Z
  | VFloat q => negb (Qeq_bool q 0)
  | VNaN => true
  | VStr s => negb (bool_decide (s = []))
  | VList l => match l with [] => false | _ => true end
  | VDict d => match d with [] => false | _ => true end
  end.

Fixpoint is_prefix (p s : pystr) : bool :=
  match p, s with
  | [], _ => true
  | _ :: _, [] => false
  | a :: p', b :: s' => (a =? b) && is_prefix p' s'
  end.

Fixpoint is_substring (p s : pystr) : bool :=
  is_prefix p s || match s with
                   | [] => false
                   | _ :: s' => is_substring p s'
                   end.

Definition is_str (k : pystr) (v : value) : bool :=
  match v with
  | VStr s => bool_decide (s = k)
  | _ => false
  end.

(** [k in v] for a string [k]. *)
Definition py_contains (k : pystr) (v : value) : res bool :=
  match v with
  | VDict d => inr (bool_decide (is_Some (dict_get k d)))
  | VList l => inr (existsb (is_str k) l)
  | VStr s => inr (is_substring k s)
  | VNone | VBool _ | VInt _ | VFloat _ | VNaN => inl TypeError
  end.

(** [v.get(k)] *)
Definition py_get (v : value) (k : pystr) : res value :=
  match v with
  | VDict d => inr (default VNone (dict_get k d))
  | _ => inl AttributeError
  end.

(** [v[:n]] *)
Definition py_slice_to (n : nat) (v : value) : res value :=
  match v with
  | VStr s => inr (VStr (take n s))
  | VList l => inr (VList (take n l))
  | _ => inl TypeError
  end.

(** [l[-n:]] on a list. *)
Definition last_n {A} (n : nat) (l : list A) : list A :=
  drop (length l - n) l.

(** Elementwise [==] of a table cell with a Python [int]. A float cell is
    compared as the rational it denotes. *)
Definition value_eq_int (v : value) (z : Z) : bool :=
  match v with
  | VInt z' => (z' =? z)%Z
  | VBool b => ((if b then 1 else 0) =? z)%Z
  | VFloat q => Qeq_bool q (inject_Z z)
  | _ => false
  end.

(** ** Responses *)

Record response : Type := Response { status : Z; body : value }.

Definition detail (msg : string) : value := VDict [(py "detail", VStr (py msg))].

(** ** Configuration *)

(** [API_TOKEN = os.getenv("API_TOKEN", "default_token")], with [environ]
    the environment after [load_dotenv()]. *)
Definition getenv (environ : gmap pystr pystr) (key default_value : pystr)
  : pystr :=
  default default_value (environ !! key).

Definition API_TOKEN (environ : gmap pystr pystr) : pystr :=
  getenv environ (py "API_TOKEN") (py "default_token").

(** ** The auth gate *)

Record request : Type := Request {
  method : pystr;
  endpoint : option pystr;          (* [None] when no route matched *)
  headers : list (pystr * pystr);
  get_json : value
}.

(** Header names compare without regard to ASCII case. *)
Definition header_get (name : pystr) (hs : list (pystr * pystr))
  : option pystr :=
  snd <$> List.find
    (fun kv => bool_decide (ascii_lower kv.1 = ascii_lower name)) hs.

(** [check_auth]: [None] lets the request through; [Some r] is the
    response returned in place of the view's. *)
Definition check_auth (token : pystr) (r : request) : option response :=
  if bool_decide (method r = py "OPTIONS") then None
  else if bool_decide
            (endpoint r ∈ [Some (py "root"); Some (py "healthcheck")])
  then None
  else if negb (bool_decide (is_Some (header_get (py "Authorization") (headers r))))
          || negb (bool_decide (header_get (py "Authorization") (headers r)
                                = Some (py "Bearer " ++ token)))
  then Some (Response 401 (detail "Unauthorized"))
  else None.

Inductive event : Type := ViewCalled (e : pystr).

Section Dispatch.

(** Flask's routing to the view functions, which records the view it
    calls. *)
Variable dispatch_request : request -> list event * response.

(** [before_request]: a function that returns a value ends the request
    with it. *)
Definition full_dispatch_request (token : pystr) (r : request)
  : list event * response :=
  match check_auth token r with
  | Some rv => ([], rv)
  | None => dispatch_request r
  end.

End Dispatch.

(** ** The metadata table

    A [pandas.DataFrame] with its default positional index: the column
    labels and the rows, each row holding one cell per column. *)

Record DataFrame : Type := {
  columns : list pystr;
  rows : list (list value)
}.

(** The position of the column labelled [name]; [KeyError] without one. *)
Definition col_index (name : pystr) (cols : list pystr) : res nat :=
  match list_find (fun c => c = name) cols with
  | Some (k, _) => mret k
  | None => raise KeyError
  end.

Definition cell_eq_int (k : nat) (z : Z) (row : list value) : bool :=
  match row !! k with
  | Some v => value_eq_int v z
  | None => false
  end.

(** [df[df[name] == z]]: the rows selected by the boolean mask, in table
    order. *)
Definition df_where_eq (df : DataFrame) (name : pystr) (z : Z)
  : res DataFrame :=
  k ← col_index name (columns df);
  mret {| columns := columns df;
          rows := List.filter (cell_eq_int k z) (rows df) |}.

(** [df.empty] *)
Definition df_empty (df : DataFrame) : bool :=
  match rows df, columns df with
  | [], _ | _, [] => true
  | _, _ => false
  end.

(** [df.to_dict(orient="records")] *)
Definition to_dict_records (df : DataFrame) : list value :=
  (fun row => VDict (py_dict (zip (columns df) row))) <$> rows df.

(** [df.iloc[positions]] *)
Definition df_iloc (df : DataFrame) (positions : list nat) : res DataFrame :=
  selected ← res_map
    (fun i => match rows df !! i with
              | Some row => mret row
              | None => raise IndexError
              end) positions;
  mret {| columns := columns df; rows := selected |}.

(** The table is well formed: labels are distinct, every row has one cell
    per column and, as the loader ensures, a column [id] exists. *)
Definition frame_ok (df : DataFrame) : bool :=
  bool_decide (NoDup (columns df))
  && forallb (fun row => length row =? length (columns df))%nat (rows df)
  && bool_decide (py "id" ∈ columns df).

(** The cell of a row in the column [id]. *)
Definition id_cell (df : DataFrame) (row : list value) : option value :=
  match col_index (py "id") (columns df) with
  | inr k => row !! k
  | inl _ => None
  end.

(** The row has [id] equal to [z]. *)
Definition id_matches (df : DataFrame) (z : Z) (row : list value) : bool :=
  match id_cell df row with
  | Some v => value_eq_int v z
  | None => false
  end.

(** Every [id] is an integer, as the data model requires. *)
Definition int_ids (df : DataFrame) : bool :=
  forallb (fun row => match id_cell df row with
                      | Some (VInt _) => true
                      | _ => false
                      end) (rows df).

(** ** Named tuples, as [itertuples] builds them *)

Definition kwlist : list pystr :=
  py <$> [ "False"; "None"; "True"; "and"; "as"; "assert"; "async"; "await";
           "break"; "class"; "continue"; "def"; "del"; "elif"; "else";
           "except"; "finally"; "for"; "from"; "global"; "if"; "import";
           "in"; "is"; "lambda"; "nonlocal"; "not"; "or"; "pass"; "raise";
           "return"; "try"; "while"; "with"; "yield" ]%string.

Definition iskeyword (name : pystr) : bool := bool_decide (name ∈ kwlist).

Definition is_ascii_alpha (c : N) : bool :=
  ((65 <=? c) && (c <=? 90)) || ((97 <=? c) && (c <=? 122)).

Definition is_ascii_digit (c : N) : bool := (48 <=? c) && (c <=? 57).

Definition UNDERSCORE : N := 95.

Definition startswith_underscore (name : pystr) : bool :=
  match name with
  | c :: _ => c =? UNDERSCORE
  | [] => false
  end.

(** [str(index)] *)
Definition decimal (index : nat) : pystr :=
  py (NilZero.string_of_uint (Nat.to_uint index)).

Record namedtuple : Type := {
  nt_fields : list pystr;
  nt_values : list value
}.

Section NamedTuple.

(** The Unicode properties XID_Start and XID_Continue, consulted for
    code points from 128 on. *)
Variables xid_start xid_continue : N -> bool.

Definition id_start (c : N) : bool :=
  if c <? 128 then is_ascii_alpha c || (c =? UNDERSCORE) else xid_start c.

Definition id_continue (c : N) : bool :=
  if c <? 128
  then is_ascii_alpha c || is_ascii_digit c || (c =? UNDERSCORE)
  else xid_continue c.

(** [str.isidentifier] *)
Definition isidentifier (name : pystr) : bool :=
  match name with
  | [] => false
  | c :: rest => id_start c && forallb id_continue rest
  end.

(** [collections.namedtuple(..., rename=True)]: a name that is not an
    identifier, is a keyword, starts with an underscore or was seen
    before is replaced by [_] and its position. *)
Fixpoint rename_fields (index : nat) (seen names : list pystr)
  : list pystr :=
  match names with
  | [] => []
  | name :: rest =>
      (if negb (isidentifier name) || iskeyword name
          || startswith_underscore name || bool_decide (name ∈ seen)
       then py "_" ++ decimal index
       else name)
      :: rename_fields (S index) (name :: seen) rest
  end.

(** [df.itertuples(index=False)] *)
Definition itertuples (df : DataFrame) : list namedtuple :=
  let fields := rename_fields 0 [] (columns df) in
  (fun row => {| nt_fields := fields; nt_values := row |}) <$> rows df.

End NamedTuple.

(** [row.name] *)
Definition nt_getattr (row : namedtuple) (name : pystr) : res value :=
  match dict_get name (zip (nt_fields row) (nt_values row)) with
  | Some v => mret v
  | None => raise AttributeError
  end.

(** [row._asdict()] *)
Definition nt_asdict (row : namedtuple) : list (pystr * value) :=
  py_dict (zip (nt_fields row) (nt_values row)).

(** ** Computations that record what they call *)

Inductive op : Type := Normalize | Vectorize | Rank.

Definition traced (A : Type) : Type := list op * res A.

#[global] Instance traced_ret : MRet traced := fun A a => ([], inr a).

#[global] Instance traced_bind : MBind traced := fun A B k m =>
  match m.2 with
  | inl e => (m.1, inl e)
  | inr a => ((m.1 ++ (k a).1)%list, (k a).2)
  end.

Definition lift {A} (m : res A) : traced A := ([], m).

Definition call {A} (o : op) (m : res A) : traced A := ([o], m).

(** ** Ordering of strings and of scores *)

(** [a <= b] on [str]: lexicographic by code point. *)
Fixpoint lex_leb (a b : pystr) : bool :=
  match a, b with
  | [], _ => true
  | _ :: _, [] => false
  | x :: a', y :: b' => (x <? y) || ((x =? y) && lex_leb a' b')
  end.

Definition lex_le (a b : pystr) : Prop := lex_leb a b = true.

Definition lex_lt (a b : pystr) : Prop := lex_le a b /\ a <> b.

#[global] Instance lex_le_dec : RelDecision lex_le.
Proof. intros a b. unfold lex_le. apply _. Defined.

(** [sorted(labels)] *)
Definition py_sorted (labels : list pystr) : list pystr :=
  merge_sort lex_le labels.

(** The score at a position of the similarity vector. *)
Definition score_at (similarities : list Q) (i : nat) : Q :=
  default 0%Q (similarities !! i).

(** What [argsort] promises about its result [order] for the vector
    [similarities]: every position occurs once, and the scores along
    [order] never decrease. The order among equal scores is left open. *)
Definition ascending (similarities : list Q) (order : list nat) : Prop :=
  forall i j a b, (i <= j)%nat -> order !! i = Some a -> order !! j = Some b ->
    (score_at similarities a <= score_at similarities b)%Q.

Definition is_argsort (similarities : list Q) (order : list nat) : Prop :=
  order ≡ₚ seq 0 (length similarities) /\ ascending similarities order.

(** A stable argsort, to run the handlers on concrete vectors. *)
Definition score_le (similarities : list Q) (a b : nat) : Prop :=
  Qle_bool (score_at similarities a) (score_at similarities b) = true.

#[global] Instance score_le_dec similarities : RelDecision (score_le similarities).
Proof. intros a b. unfold score_le. apply _. Defined.

Definition stable_argsort (similarities : list Q) : list nat :=
  merge_sort (score_le similarities) (seq 0 (length similarities)).

(** ** The handlers *)

Section Handlers.

(** [str.lower] *)
Variable lower : pystr -> pystr.
(** [unsupervised_vectorizer.transform([text])] followed by
    [cosine_similarity(vector, job_vectors).flatten()] *)
Variable similarity : pystr -> list Q.
(** [ndarray.argsort()] *)
Variable argsort : list Q -> list nat.
(** [round(x, 4)] on a float *)
Variable round4 : Q -> Q.
(** [int(s)] on a [str] *)
Variable int_of_str : pystr -> res Z.
(** XID_Start and XID_Continue, for [str.isidentifier] *)
Variables xid_start xid_continue : N -> bool.
(** The loaded artifacts. *)
Variable job_metadata : DataFrame.
Variable classes_ : list pystr.

(** [int(v)] *)
Definition py_int (v : value) : res Z :=
  match v with
  | VInt z => mret z
  | VBool b => mret (if b then 1 else 0)%Z
  | VFloat q => mret (Z.quot (Qnum q) (Zpos (Qden q)))
  | VNaN => raise ValueError
  | VStr s => int_of_str s
  | VNone | VList _ | VDict _ => raise TypeError
  end.

(** [basic_preprocess(v)] on whatever [data.get("text")] returned. *)
Definition call_basic_preprocess (v : value) : res pystr :=
  match v with
  | VStr s => mret (basic_preprocess lower s)
  | _ => raise AttributeError
  end.

(** [similarities.argsort()[-5:][::-1]] *)
Definition top_indices (similarities : list Q) : list nat :=
  reverse (last_n 5 (argsort similarities)).

(** One element of the list comprehension. *)
Definition recommendation (similarities : list Q)
    (item : nat * namedtuple) : res value :=
  let '(idx, row) := item in
  id ← nt_getattr row (py "id");
  job_id ← py_int id;
  let job_title :=
    default (VStr (py "N/A")) (dict_get (py "Job Title") (nt_asdict row)) in
  description ← py_slice_to 300
    (default (VStr []) (dict_get (py "Job Description") (nt_asdict row)));
  sim ← match similarities !! idx with
        | Some x => mret x
        | None => raise IndexError
        end;
  mret (VDict [ (py "job_id", VInt job_id);
                (py "job_title", job_title);
                (py "description", description);
                (py "similarity_score", VFloat (round4 sim)) ]).

(** Lines 152 to 163: from the similarity vector to the list of
    recommendations. *)
Definition recommendations (similarities : list Q) : res (list value) :=
  let top := top_indices similarities in
  top_jobs ← df_iloc job_metadata top;
  res_map (recommendation similarities)
    (zip top (itertuples xid_start xid_continue top_jobs)).

Definition missing_text : response :=
  Response 400 (detail "Missing 'text' in request body").

(** [recommend_jobs], given what [request.get_json()] returned. An
    [inl e] is an exception that leaves the view. *)
Definition recommend_jobs (data : value) : traced response :=
  if negb (truthy data) then mret missing_text
  else
    has_text ← lift (py_contains (py "text") data);
    if negb has_text then mret missing_text
    else
      raw ← lift (py_get data (py "text"));
      text ← call Normalize (call_basic_preprocess raw);
      similarities ← call Vectorize (mret (similarity text));
      recs ← call Rank (recommendations similarities);
      mret (Response 200 (VDict [(py "recommendations", VList recs)])).

Definition internal_server_error : response :=
  Response 500 (detail "Internal Server Error").

(** [get_all_categories]; sorting strings raises nothing. *)
Definition get_all_categories : response :=
  Response 200
    (VDict [(py "categories", VList (VStr <$> py_sorted classes_))]).

(** [get_job_detail] *)
Definition get_job_detail (job_id : Z) : response :=
  let attempt : res response :=
    job ← df_where_eq job_metadata (py "id") job_id;
    if df_empty job then mret (Response 404 (detail "Job not found"))
    else
      match to_dict_records job !! 0%nat with
      | Some record => mret (Response 200 record)
      | None => raise IndexError
      end in
  match attempt with
  | inr r => r
  | inl _ => internal_server_error
  end.

End Handlers.

(** ** Names used in the statements *)

Definition unauthorized : response := Response 401 (detail "Unauthorized").

(** [f"Bearer {API_TOKEN}"] *)
Definition bearer (token : pystr) : pystr := py "Bearer " ++ token.

(** The value of the [Authorization] header, if the request has one. *)
Definition authorization (r : request) : option pystr :=
  header_get (py "Authorization") (headers r).

(** The element of the response built for the table row at position [i]:
    what [recommendation] returns on a well-formed table. *)
Definition record_of (round4 : Q -> Q) (df : DataFrame)
    (similarities : list Q) (i : nat) : value :=
  let row := default [] (rows df !! i) in
  let job_id := match id_cell df row with Some (VInt z) => z | _ => 0%Z end in
  VDict [ (py "job_id", VInt job_id);
          (py "job_title", VStr (py "N/A"));
          (py "description", VStr []);
          (py "similarity_score", VFloat (round4 (score_at similarities i))) ].

(** ** Sample data *)

Definition sample_dispatch (r : request) : list event * response :=
  match endpoint r with
  | Some e => ([ViewCalled e], Response 200 VNone)
  | None => ([], Response 404 VNone)
  end.

Definition sample_request (hs : list (pystr * pystr)) : request :=
  {| method := py "POST"; endpoint := Some (py "recommend_jobs");
     headers := hs; get_json := VNone |}.

Definition sample_jobs : DataFrame :=
  {| columns := [py "id"; py "Job Title"; py "Job Description"];
     rows :=
       [ [VInt 101; VStr (py "Data Engineer"); VStr (py "Builds pipelines")];
         [VInt 102; VStr (py "Chef"); VStr (py "Runs the kitchen")];
         [VInt 103; VStr (py "Nurse"); VStr (py "Cares for patients")];
         [VInt 104; VStr (py "Pilot"); VStr (py "Flies aircraft")];
         [VInt 105; VStr (py "Baker"); VStr (py "Bakes bread")];
         [VInt 106; VStr (py "Welder"); VStr (py "Joins metal")];
         [VInt 102; VStr (py "Sous Chef"); VStr (py "Assists the chef")] ] |}.

Definition sample_similarities : list Q :=
  [ 1 # 10; 7 # 10; 0; 7 # 10; 3 # 10; 9 # 10; 2 # 10 ]%Q.

(** A table with the two labelled columns the handler asks for. *)
Definition titled_job : DataFrame :=
  {| columns := [py "id"; py "Job Title"; py "Job Description"];
     rows := [ [VInt 7; VStr (py "Data Engineer");
                VStr (py "Builds pipelines")] ] |}.

Definition sample_labels : list pystr :=
  [py "Sales"; py "Engineering"; py "Design"; py "Finance"].

(** The decimal with four places nearest to [q], ties to even: the number
    that [round(x, 4)] approximates by a float. *)
Definition round4_decimal (q : Q) : Q :=
  let t := (q * 10000)%Q in
  let f := Qfloor t in
  let r := (t - inject_Z f)%Q in
  let up :=
    match (r ?= 1 # 2)%Q with
    | Lt => false
    | Gt => true
    | Eq => Z.odd f
    end in
  Qmake (if up then f + 1 else f)%Z 10000.

Definition text_body (text : string) : value :=
  VDict [(py "text", VStr (py text))].

Definition no_xid : N -> bool := fun _ => false.

Definition no_int_of_str : pystr -> res Z := fun _ => raise ValueError.

(** ** The loader: making sure of an [id] column *)

(** [df.reset_index(inplace=True)] on a table that still has the default
    index of [read_csv]: the positions become a new first column, labelled
    [index], or [level_0] when a column [index] exists already; inserting
    a label that exists raises [ValueError]. *)
Definition reset_index (df : DataFrame) : res DataFrame :=
  let name :=
    if bool_decide (py "index" ∈ columns df) then py "level_0"
    else py "index" in
  if bool_decide (name ∈ columns df) then raise ValueError
  else mret {| columns := name :: columns df;
               rows := zip_with (fun i row => VInt (Z.of_nat i) :: row)
                         (seq 0 (length (rows df))) (rows df) |}.

(** [df.rename(columns={old: new}, inplace=True)] *)
Definition rename_column (old new : pystr) (df : DataFrame) : DataFrame :=
  {| columns := (fun c => if bool_decide (c = old) then new else c)
                <$> columns df;
     rows := rows df |}.

(** Lines 77 to 79. *)
Definition ensure_id (df : DataFrame) : res DataFrame :=
  if bool_decide (py "id" ∈ columns df) then mret df
  else
    df' ← reset_index df;
    mret (rename_column (py "index") (py "id") df').

(** How the module ends its start: the table it serves, or the
    [RuntimeError] that keeps the process from starting. *)
Inductive startup : Type :=
| Serving (job_metadata : DataFrame)
| StartupFailed.

Inductive io : Type := Download (bucket : pystr).

Section Startup.

(** Lines 48 to 74: the storage client, the three pickles, the vector
    matrix and [read_csv]; what is kept here is the metadata table, or
    the exception any of these raised. *)
Variable download_artifacts : pystr -> res DataFrame.

(** The [try] block of the module, with the downloads it starts. *)
Definition load_artifacts (environ : gmap pystr pystr) : list io * startup :=
  match environ !! py "BUCKET_NAME" with
  | None => ([], StartupFailed)
  | Some bucket =>
      if bool_decide (bucket = []) then ([], StartupFailed)
      else
        ([Download bucket],
         match raw ← download_artifacts bucket; ensure_id raw with
         | inr df => Serving df
         | inl _ => StartupFailed
         end)
  end.

End Startup.

(** ** The category predictor *)

Section Predictor.

(** [str.lower] *)
Variable lower : pystr -> pystr.
(** [supervised_vectorizer.transform([description])],
    [classifier.predict(vec)[0]] and the label as [jsonify] takes it:
    the body of the [try], which raises what any of the three raises. *)
Variable predict_label : pystr -> res value.

Definition missing_description : response :=
  Response 400 (detail "Missing 'description' in request body").

(** [predict_category], given what [request.get_json()] returned. The
    event [Vectorize] records that the [try] block was entered. *)
Definition predict_category (data : value) : traced response :=
  if negb (truthy data) then mret missing_description
  else
    has_description ← lift (py_contains (py "description") data);
    if negb has_description then mret missing_description
    else
      raw ← lift (py_get data (py "description"));
      description ← call Normalize (call_basic_preprocess lower raw);
      call Vectorize
        (mret (match predict_label description with
               | inr pred =>
                   Response 200 (VDict [(py "predicted_category", pred)])
               | inl _ => internal_server_error
               end)).

End Predictor.

(** ** More names used in the statements *)

Definition is_ascii (c : N) : Prop := c < 128.

(** An ASCII character that is neither a letter nor whitespace. *)
Definition is_junk (c : N) : Prop :=
  c < 128 /\ is_ascii_alpha c = false /\ is_space c = false.

Definition is_whitespace (c : N) : Prop := c < 128 /\ is_space c = true.

Definition is_str_value (v : value) : bool :=
  match v with
  | VStr _ => true
  | _ => false
  end.

(** A body that is truthy and supports neither [in] nor [.get]. *)
Definition is_scalar_body (v : value) : bool :=
  match v with
  | VBool b => b
  | VInt z => negb (z =? 0)%Z
  | VFloat q => negb (Qeq_bool q 0)
  | VNaN => true
  | _ => false
  end.

Definition starts_upper (s : pystr) : Prop :=
  exists c rest, s = c :: rest /\ 65 <= c <= 90.

Definition starts_lower (s : pystr) : Prop :=
  exists c rest, s = c :: rest /\ 97 <= c <= 122.

(** ** More sample data *)

Definition plain_table : DataFrame :=
  {| columns := [py "Job Title"; py "Job Description"];
     rows :=
       [ [VStr (py "Data Engineer"); VStr (py "Builds pipelines")];
         [VStr (py "Chef"); VStr (py "Runs the kitchen")];
         [VStr (py "Nurse"); VStr (py "Cares for patients")] ] |}.

Definition indexed_table : DataFrame :=
  {| columns := [py "index"; py "Job Title"];
     rows := [ [VInt 40; VStr (py "Pilot")]; [VInt 50; VStr (py "Baker")] ] |}.

Definition clashing_table : DataFrame :=
  {| columns := [py "index"; py "level_0"];
     rows := [ [VInt 40; VInt 1] ] |}.

Definition short_table : DataFrame :=
  {| columns := [py "id"; py "Job Title"];
     rows := [ [VInt 1; VStr (py "Pilot")]; [VInt 2; VStr (py "Baker")] ] |}.

Definition sample_download (bucket : pystr) : res DataFrame :=
  mret plain_table.

Definition sample_predict (description : pystr) : res value :=
  match description with
  | [] => raise ValueError
  | _ => mret (VStr (py "Engineering"))
  end.

Definition description_body (description : string) : value :=
  VDict [(py "description", VStr (py description))].

(* ================================================================= *)
(** * Verification *)

(** ** Character classes *)

Lemma is_space_SPACE : is_space SPACE = true.
Proof. reflexivity. Qed.

Lemma is_az_not_space c : is_az c = true -> is_space c = false.
Proof.
  unfold is_az. rewrite andb_true_iff, !N.leb_le. intros [Hlo Hhi].
  apply not_true_is_false. unfold is_space.
  rewrite !orb_true_iff, !andb_true_iff, !N.leb_le, !N.eqb_eq. lia.
Qed.

Lemma az_or_space_class c :
  az_or_space c -> is_az c || is_space c = true.
Proof.
  intros [H | ->]; [by rewrite H | by rewrite is_space_SPACE, orb_true_r].
Qed.

Lemma az_or_space_is_space c :
  az_or_space c -> is_space c = (c =? SPACE).
Proof.
  intros [H | ->]; [| done].
  rewrite (is_az_not_space _ H). symmetry. apply N.eqb_neq. intros ->.
  discriminate H.
Qed.

(** ** Runs of two spaces, as an infix *)

Lemma no_double_space_infix text :
  no_double_space text <->
  forall l1 l2, text <> l1 ++ SPACE :: SPACE :: l2.
Proof.
  induction text as [| a [| b rest] IH].
  - split; [| done]. intros _ [| ? ?] l2; discriminate.
  - split; [| done]. intros _ [| ? [| ? ?]] l2; discriminate.
  - change (no_double_space (a :: b :: rest))
      with (~ (a = SPACE /\ b = SPACE) /\ no_double_space (b :: rest)).
    rewrite IH. split.
    + intros [Hab Hrest] [| x l1] l2 Heq.
      * injection Heq as -> -> _. by apply Hab.
      * injection Heq as _ Heq. by apply (Hrest l1 l2).
    + intros H. split.
      * intros [-> ->]. by apply (H [] rest).
      * intros l1 l2 Heq. apply (H (a :: l1) l2). by rewrite Heq.
Qed.

Lemma no_double_space_app_inv l1 text l2 :
  no_double_space (l1 ++ text ++ l2) -> no_double_space text.
Proof.
  rewrite !no_double_space_infix. intros H m1 m2 ->.
  apply (H (l1 ++ m1) (m2 ++ l2)). by rewrite <- !app_assoc.
Qed.

(** ** The two substitutions *)

Lemma sub_non_az_ws_class text :
  Forall (fun c => is_az c || is_space c = true) (sub_non_az_ws text).
Proof.
  apply List.Forall_forall. intros c Hc.
  apply List.filter_In in Hc. tauto.
Qed.

Lemma sub_ws_runs_from_shape in_run text :
  Forall (fun c => is_az c || is_space c = true) text ->
  Forall az_or_space (sub_ws_runs_from in_run text)
  /\ no_double_space (sub_ws_runs_from in_run text)
  /\ (in_run = true -> head (sub_ws_runs_from in_run text) <> Some SPACE).
Proof.
  intros Hcl. revert in_run.
  induction Hcl as [| c rest Hc _ IH]; intros in_run; simpl.
  - repeat split; [constructor | done].
  - destruct (is_space c) eqn:Hsp.
    + destruct (IH true) as (Hall & Hnd & Hhd). specialize (Hhd eq_refl).
      destruct in_run; [done |].
      repeat split; [constructor; [by right | done] | | done].
      destruct (sub_ws_runs_from true rest) as [| b tl] eqn:Heq; [done |].
      split; [| done]. intros [_ ->]. by apply Hhd.
    + rewrite orb_false_r in Hc.
      destruct (IH false) as (Hall & Hnd & _).
      assert (c <> SPACE) by (intros ->; discriminate Hsp).
      repeat split; [constructor; [by left | done] | | ].
      * destruct (sub_ws_runs_from false rest) as [| b tl]; [done |].
        split; [| done]. by intros [? _].
      * intros _ [=].  done.
Qed.

(** ** Stripping *)

Lemma lstrip_split text :
  exists pre, text = pre ++ lstrip text
    /\ forall c, head (lstrip text) = Some c -> is_space c = false.
Proof.
  induction text as [| c rest (pre & Heq & Hhd)]; simpl.
  - exists []. split; [done | intros ? [=]].
  - destruct (is_space c) eqn:Hsp.
    + exists (c :: pre). split; [by rewrite Heq at 1 | done].
    + exists []. split; [done |]. by intros ? [= <-].
Qed.

Lemma rstrip_split text :
  exists suf, text = rstrip text ++ suf
    /\ forall c, last (rstrip text) = Some c -> is_space c = false.
Proof.
  unfold rstrip. destruct (lstrip_split (reverse text)) as (pre & Heq & Hhd).
  exists (reverse pre). split.
  - rewrite <- reverse_app, <- Heq. by rewrite reverse_involutive.
  - intros c. rewrite last_reverse. apply Hhd.
Qed.

Lemma lstrip_id text :
  (forall c, head text = Some c -> is_space c = false) -> lstrip text = text.
Proof.
  destruct text as [| c rest]; [done |]. simpl. intros H.
  by rewrite (H c eq_refl).
Qed.

Lemma rstrip_id text :
  (forall c, last text = Some c -> is_space c = false) -> rstrip text = text.
Proof.
  intros H. unfold rstrip. rewrite lstrip_id; [apply reverse_involutive |].
  intros c. rewrite head_reverse. apply H.
Qed.

Lemma strip_shape text :
  Forall az_or_space text -> no_double_space text -> normal_form (strip text).
Proof.
  intros Hall Hnd. unfold strip.
  destruct (lstrip_split text) as (pre & Heq1 & Hhd).
  destruct (rstrip_split (lstrip text)) as (suf & Heq2 & Hlast).
  set (out := rstrip (lstrip text)) in *.
  assert (Htext : text = pre ++ out ++ suf) by (by rewrite <- Heq2).
  assert (Hout : Forall az_or_space out).
  { rewrite Htext in Hall. apply Forall_app in Hall as [_ Hall].
    by apply Forall_app in Hall as [Hall _]. }
  repeat split; [done | | |].
  - rewrite Htext in Hnd. by apply no_double_space_app_inv in Hnd.
  - intros Hout_hd. rewrite Heq2 in Hhd.
    destruct out as [| c tl]; [done |]. injection Hout_hd as ->.
    by specialize (Hhd SPACE eq_refl).
  - intros Hout_last. by specialize (Hlast SPACE Hout_last).
Qed.

Lemma lstrip_trim_left_space text :
  Forall az_or_space text -> lstrip text = trim_left_space text.
Proof.
  induction 1 as [| c rest Hc _ IH]; [done |]. simpl.
  rewrite (az_or_space_is_space _ Hc). by destruct (c =? SPACE).
Qed.

Lemma Forall_lstrip (P : N -> Prop) text :
  Forall P text -> Forall P (lstrip text).
Proof.
  intros H. destruct (lstrip_split text) as (pre & Heq & _).
  rewrite Heq in H. by apply Forall_app in H as [_ H].
Qed.

Lemma strip_trim_space text :
  Forall az_or_space text -> strip text = trim_space text.
Proof.
  intros H. unfold strip, rstrip, trim_space.
  rewrite <- (lstrip_trim_left_space text H).
  rewrite (lstrip_trim_left_space (reverse (lstrip text))); [done |].
  apply Forall_reverse. by apply Forall_lstrip.
Qed.

(** ** Fixed points of each step *)

Lemma sub_non_az_ws_id text :
  Forall az_or_space text -> sub_non_az_ws text = text.
Proof.
  induction 1 as [| c rest Hc _ IH]; [done |].
  unfold sub_non_az_ws in *. simpl. by rewrite (az_or_space_class _ Hc), IH.
Qed.

Lemma sub_ws_runs_from_id in_run text :
  Forall az_or_space text -> no_double_space text ->
  (in_run = true -> head text <> Some SPACE) ->
  sub_ws_runs_from in_run text = text.
Proof.
  intros Hall. revert in_run.
  induction Hall as [| c rest Hc _ IH]; intros in_run Hnd Hhd; [done |].
  simpl. rewrite (az_or_space_is_space _ Hc).
  assert (Hrest : no_double_space rest).
  { apply (no_double_space_app_inv [c] rest []). by rewrite app_nil_r. }
  destruct (N.eqb_spec c SPACE) as [-> | Hne].
  - destruct in_run; [by destruct (Hhd eq_refl) |].
    rewrite IH; [done | done |]. intros _.
    destruct rest as [| b tl]; [done |]. intros [= ->].
    destruct Hnd as [Hnd _]. by apply Hnd.
  - rewrite IH; [done | done | done].
Qed.

Lemma normal_form_strip_id text : normal_form text -> strip text = text.
Proof.
  intros (Hall & _ & Hhd & Hlast).
  assert (Hns : forall c, c ∈ text -> c <> SPACE -> is_space c = false).
  { intros c Hin Hne. rewrite Forall_forall in Hall.
    rewrite (az_or_space_is_space _ (Hall c Hin)). by apply N.eqb_neq. }
  unfold strip. rewrite lstrip_id.
  - apply rstrip_id. intros c Hc. apply Hns; [by apply last_Some_elem_of |].
    by intros ->.
  - intros c Hc. apply Hns; [by apply head_Some_elem_of |]. by intros ->.
Qed.

(** ** The normalizer *)

Example basic_preprocess_sample :
  basic_preprocess ascii_lower (py "  Hello,   World! 42	x ") = py "hello world x".
Proof. reflexivity. Qed.

Example basic_preprocess_empty : basic_preprocess ascii_lower [] = [].
Proof. reflexivity. Qed.

Lemma sub_steps_shape text :
  Forall az_or_space (sub_ws_runs (sub_non_az_ws text))
  /\ no_double_space (sub_ws_runs (sub_non_az_ws text)).
Proof.
  destruct (sub_ws_runs_from_shape false _ (sub_non_az_ws_class text))
    as (Hall & Hnd & _).
  by split.
Qed.

Lemma basic_preprocess_shape (lower : pystr -> pystr) (text : pystr) :
  normal_form (basic_preprocess lower text).
Proof.
  unfold basic_preprocess.
  destruct (sub_steps_shape (lower text)) as [Hall Hnd].
  by apply strip_shape.
Qed.

(** C5. For whatever [str.lower] returns, and so for every input string,
    the empty one included, [basic_preprocess] yields a result; that
    result consists of [a-z] and U+0020 only, has no two spaces in a row
    and no space at either end; and it is what the specification's four
    steps (lower-case, delete what is neither [a-z] nor whitespace,
    collapse whitespace runs, trim spaces) produce. *)
Theorem basic_preprocess_normal_form (lower : pystr -> pystr) (text : pystr) :
  exists out,
    basic_preprocess lower text = out
    /\ normal_form out
    /\ out = trim_space (sub_ws_runs (sub_non_az_ws (lower text))).
Proof.
  exists (basic_preprocess lower text).
  split; [done |]. split; [apply basic_preprocess_shape |].
  unfold basic_preprocess. apply strip_trim_space.
  apply (sub_steps_shape (lower text)).
Qed.

Lemma normal_form_fixed (lower : pystr -> pystr) (text : pystr) :
  lower text = text -> normal_form text -> basic_preprocess lower text = text.
Proof.
  intros Hlower Hnf. unfold basic_preprocess. rewrite Hlower.
  destruct Hnf as (Hall & Hnd & Hhd & Hlast).
  rewrite (sub_non_az_ws_id _ Hall).
  unfold sub_ws_runs. rewrite sub_ws_runs_from_id; [| done | done | done].
  by apply normal_form_strip_id.
Qed.

(** C6. [basic_preprocess] is idempotent. The one fact used about
    [str.lower] is that it leaves a string of lower-case ASCII letters and
    spaces unchanged. *)
Theorem basic_preprocess_idempotent (lower : pystr -> pystr) :
  (forall t, Forall az_or_space t -> lower t = t) ->
  forall s,
    basic_preprocess lower (basic_preprocess lower s)
    = basic_preprocess lower s.
Proof.
  intros Hlower s. pose proof (basic_preprocess_shape lower s) as Hnf.
  apply normal_form_fixed; [| done]. apply Hlower. by destruct Hnf.
Qed.

Lemma ascii_lower_fixes_normal t :
  Forall az_or_space t -> ascii_lower t = t.
Proof.
  induction 1 as [| c rest Hc _ IH]; [done |].
  unfold ascii_lower in *. simpl. rewrite IH. f_equal.
  destruct Hc as [Hc | ->]; [| done].
  unfold is_az in Hc. apply andb_true_iff in Hc as [Hlo _].
  apply N.leb_le in Hlo.
  assert ((c <=? 90) = false) as -> by (apply N.leb_gt; lia).
  by rewrite andb_false_r.
Qed.

Lemma basic_preprocess_idempotent_witness :
  (forall t, Forall az_or_space t -> ascii_lower t = t)
  /\ basic_preprocess ascii_lower
       (basic_preprocess ascii_lower (py " Senior  C++ Developer (Remote) "))
     = basic_preprocess ascii_lower (py " Senior  C++ Developer (Remote) ").
Proof.
  split; [exact ascii_lower_fixes_normal |].
  apply (basic_preprocess_idempotent ascii_lower ascii_lower_fixes_normal).
Defined.

(** ** The auth gate *)

Lemma check_auth_cases token r :
  check_auth token r =
    if bool_decide (method r = py "OPTIONS") then None
    else if bool_decide (endpoint r = Some (py "root")
                         \/ endpoint r = Some (py "healthcheck")) then None
    else if bool_decide (authorization r = Some (bearer token)) then None
    else Some unauthorized.
Proof.
  unfold check_auth, authorization, bearer.
  assert (bool_decide
            (endpoint r ∈ [Some (py "root"); Some (py "healthcheck")])
          = bool_decide (endpoint r = Some (py "root")
                         \/ endpoint r = Some (py "healthcheck"))) as ->.
  { apply bool_decide_ext. rewrite !elem_of_cons, elem_of_nil. tauto. }
  destruct (bool_decide (method r = py "OPTIONS")); [done |].
  destruct (bool_decide (_ \/ _)); [done |].
  destruct (header_get (py "Authorization") (headers r)) as [h |].
  - rewrite (bool_decide_eq_true_2 (is_Some (Some h))) by eauto.
    simpl. by destruct (bool_decide (Some h = _)).
  - rewrite (bool_decide_eq_false_2 (is_Some None)) by (by intros [? ?]).
    by simpl.
Qed.

(** C2. A preflight request passes the gate whatever else it carries; so
    does a request routed to the status page or to the health check. Any
    other request passes exactly when its [Authorization] header is
    present and equal to ["Bearer " + token]; otherwise the gate answers
    401 with [{"detail": "Unauthorized"}], that answer is the response of
    the request, and no view is called. *)
Theorem check_auth_gate
    (dispatch_request : request -> list event * response)
    (token : pystr) (r : request) :
  (method r = py "OPTIONS" -> check_auth token r = None)
  /\ (endpoint r = Some (py "root") \/ endpoint r = Some (py "healthcheck") ->
      check_auth token r = None)
  /\ (method r <> py "OPTIONS" ->
      endpoint r <> Some (py "root") ->
      endpoint r <> Some (py "healthcheck") ->
      (authorization r = Some (bearer token) -> check_auth token r = None)
      /\ (authorization r <> Some (bearer token) ->
          check_auth token r = Some unauthorized
          /\ full_dispatch_request dispatch_request token r
             = ([], unauthorized))).
Proof.
  unfold full_dispatch_request. rewrite check_auth_cases.
  split; [| split].
  - intros ->. by rewrite bool_decide_eq_true_2.
  - intros Hep. case_bool_decide; [done |]. by rewrite bool_decide_eq_true_2.
  - intros Hm Hroot Hhealth.
    rewrite (bool_decide_eq_false_2 _ Hm).
    rewrite bool_decide_eq_false_2 by tauto.
    split; intros Hauth.
    + by rewrite (bool_decide_eq_true_2 _ Hauth).
    + by rewrite (bool_decide_eq_false_2 _ Hauth).
Qed.

Lemma check_auth_gate_witness :
  let r := sample_request [(py "Authorization", py "Bearer wrong")] in
  method r <> py "OPTIONS"
  /\ endpoint r <> Some (py "root")
  /\ endpoint r <> Some (py "healthcheck")
  /\ authorization r <> Some (bearer (py "s3cret"))
  /\ check_auth (py "s3cret") r = Some unauthorized
  /\ full_dispatch_request sample_dispatch (py "s3cret") r
     = ([], unauthorized).
Proof.
  intros r.
  assert (Hm : method r <> py "OPTIONS") by (by vm_compute).
  assert (Hroot : endpoint r <> Some (py "root")) by (by vm_compute).
  assert (Hhealth : endpoint r <> Some (py "healthcheck")) by (by vm_compute).
  assert (Hauth : authorization r <> Some (bearer (py "s3cret")))
    by (by vm_compute).
  repeat (split; [assumption |]).
  exact (proj2 (proj2 (proj2 (check_auth_gate sample_dispatch (py "s3cret") r))
                  Hm Hroot Hhealth) Hauth).
Defined.

(** C9. Without an [API_TOKEN] variable in the environment the secret is
    the literal ["default_token"], and a request to a protected route
    whose [Authorization] header is ["Bearer default_token"] passes the
    gate. *)
Theorem default_token_accepted (environ : gmap pystr pystr) (r : request) :
  environ !! py "API_TOKEN" = None ->
  authorization r = Some (py "Bearer default_token") ->
  API_TOKEN environ = py "default_token"
  /\ check_auth (API_TOKEN environ) r = None.
Proof.
  intros Henv Hauth. unfold API_TOKEN, getenv. rewrite Henv. simpl.
  split; [done |]. rewrite check_auth_cases.
  destruct (bool_decide (method r = _)); [done |].
  destruct (bool_decide (_ \/ _)); [done |].
  by rewrite (bool_decide_eq_true_2 _ Hauth).
Qed.

Lemma default_token_accepted_witness :
  let r := sample_request [(py "Authorization", py "Bearer default_token")] in
  (∅ : gmap pystr pystr) !! py "API_TOKEN" = None
  /\ authorization r = Some (py "Bearer default_token")
  /\ API_TOKEN ∅ = py "default_token"
  /\ check_auth (API_TOKEN ∅) r = None.
Proof.
  intros r.
  assert (Henv : (∅ : gmap pystr pystr) !! py "API_TOKEN" = None)
    by apply lookup_empty.
  assert (Hauth : authorization r = Some (py "Bearer default_token"))
    by reflexivity.
  split; [exact Henv |]. split; [exact Hauth |].
  exact (default_token_accepted ∅ r Henv Hauth).
Defined.

(** ** Ranking: the five largest, largest first *)

Section Ranking.

Variable similarities : list Q.
Variable order : list nat.
Hypothesis Hargsort : is_argsort similarities order.

Let n := length similarities.
Let cut := (length order - 5)%nat.
Let top := reverse (last_n 5 order).

Lemma order_length : length order = n.
Proof.
  destruct Hargsort as [Hperm _]. by rewrite Hperm, length_seq.
Qed.

Lemma order_NoDup : NoDup order.
Proof. destruct Hargsort as [Hperm _]. rewrite Hperm. apply NoDup_seq. Qed.

Lemma order_elem_of i : i ∈ order <-> (i < n)%nat.
Proof.
  destruct Hargsort as [Hperm _]. rewrite Hperm, elem_of_seq.
  unfold n. lia.
Qed.

Lemma top_length : length top = Nat.min 5 n.
Proof.
  unfold top, last_n. rewrite length_reverse, length_drop, order_length. lia.
Qed.

Lemma top_NoDup : NoDup top.
Proof.
  unfold top, last_n. rewrite reverse_Permutation.
  pose proof order_NoDup as Hnd.
  rewrite <- (take_drop cut order) in Hnd.
  by apply NoDup_app in Hnd as (_ & _ & Hnd).
Qed.

Lemma top_elem_of i :
  i ∈ top <-> exists p, (cut <= p)%nat /\ order !! p = Some i.
Proof.
  unfold top, last_n. fold cut. rewrite elem_of_reverse, list_elem_of_lookup.
  split.
  - intros [p Hp]. rewrite lookup_drop in Hp. exists (cut + p)%nat.
    split; [lia | done].
  - intros (p & Hle & Hp). exists (p - cut)%nat. rewrite lookup_drop.
    by replace (cut + (p - cut))%nat with p by lia.
Qed.

Lemma top_bound i : i ∈ top -> (i < n)%nat.
Proof.
  rewrite top_elem_of. intros (p & _ & Hp). apply order_elem_of.
  by apply list_elem_of_lookup_2 in Hp.
Qed.

Lemma top_dominates i j :
  i ∈ top -> (j < n)%nat -> j ∉ top ->
  (score_at similarities j <= score_at similarities i)%Q.
Proof.
  rewrite !top_elem_of. intros (p & Hle & Hp) Hj Hout.
  apply order_elem_of, list_elem_of_lookup in Hj as [q Hq].
  destruct Hargsort as [_ Hasc]. apply (Hasc q p j i); [| done | done].
  destruct (decide (cut <= q)%nat); [| lia].
  exfalso. apply Hout. eauto.
Qed.

Lemma top_lookup p i :
  top !! p = Some i ->
  (p < length top)%nat
  /\ order !! (cut + (length top - S p))%nat = Some i.
Proof.
  intros Hp. pose proof (lookup_lt_Some _ _ _ Hp) as Hlt.
  split; [done |]. unfold top in *.
  rewrite reverse_lookup in Hp by (by rewrite length_reverse in Hlt).
  rewrite length_reverse. unfold last_n in *. fold cut in Hp |- *.
  by rewrite lookup_drop in Hp.
Qed.

Lemma top_descending p q a b :
  (p <= q)%nat -> top !! p = Some a -> top !! q = Some b ->
  (score_at similarities b <= score_at similarities a)%Q.
Proof.
  intros Hpq Ha Hb.
  apply top_lookup in Ha as [Hp Ha]. apply top_lookup in Hb as [Hq Hb].
  destruct Hargsort as [_ Hasc].
  eapply (Hasc _ _ b a); [| exact Hb | exact Ha]. lia.
Qed.

End Ranking.

(** ** Dictionaries *)

Lemma dict_get_dict_set {V} (k k' : pystr) (v : V) d :
  dict_get k (dict_set k' v d)
  = if decide (k = k') then Some v else dict_get k d.
Proof.
  induction d as [| [k0 v0] d IH]; simpl.
  - by destruct (decide (k = k')).
  - destruct (decide (k' = k0)) as [-> | Hne]; simpl.
    + by destruct (decide (k = k0)).
    + destruct (decide (k = k0)) as [-> | Hne'].
      * by rewrite decide_False.
      * apply IH.
Qed.

Lemma dict_get_None {V} (k : pystr) (d : list (pystr * V)) :
  k ∉ d.*1 -> dict_get k d = None.
Proof.
  induction d as [| [k0 v0] d IH]; [done |]. simpl.
  rewrite not_elem_of_cons. intros [Hne Hd]. by rewrite decide_False; auto.
Qed.

Lemma dict_get_py_dict_None {V} (k : pystr) (items : list (pystr * V)) :
  k ∉ items.*1 -> dict_get k (py_dict items) = None.
Proof.
  unfold py_dict. generalize (@nil (pystr * V)) (eq_refl : dict_get k (@nil (pystr * V)) = None).
  induction items as [| [k0 v0] items IH]; intros acc Hacc; simpl; [done |].
  rewrite not_elem_of_cons. intros [Hne Hitems].
  apply IH; [| done]. rewrite dict_get_dict_set. by rewrite decide_False.
Qed.

Lemma dict_set_fresh {V} (k : pystr) (v : V) d :
  k ∉ d.*1 -> dict_set k v d = d ++ [(k, v)].
Proof.
  induction d as [| [k0 v0] d IH]; [done |]. simpl.
  rewrite not_elem_of_cons. intros [Hne Hd].
  rewrite decide_False by done. by rewrite IH.
Qed.

Lemma py_dict_NoDup {V} (items : list (pystr * V)) :
  NoDup items.*1 -> py_dict items = items.
Proof.
  unfold py_dict.
  enough (forall acc, NoDup (acc ++ items).*1 ->
            foldl (fun d kv => dict_set kv.1 kv.2 d) acc items = acc ++ items)
    as H by (intros Hnd; by apply (H [])).
  induction items as [| [k0 v0] items IH]; intros acc Hnd; simpl.
  - by rewrite app_nil_r.
  - rewrite dict_set_fresh.
    + rewrite IH; [by rewrite <- app_assoc |]. by rewrite <- app_assoc.
    + rewrite fmap_app in Hnd. apply NoDup_app in Hnd as (_ & Hnd & _).
      intros Hin. apply (Hnd _ Hin). simpl. by left.
Qed.

(** ** Computations that may raise *)

Lemma res_map_ok {A B} (f : A -> res B) (g : A -> B) (l : list A) :
  (forall a, a ∈ l -> f a = inr (g a)) -> res_map f l = inr (g <$> l).
Proof.
  induction l as [| a l IH]; intros Hf; simpl; [done |].
  rewrite (Hf a) by (by left). simpl.
  rewrite IH by (intros; apply Hf; by right). done.
Qed.

(** ** Field names of the named tuples *)

Section NamedTupleFacts.

Variables xid_start xid_continue : N -> bool.

Local Abbreviation fields_of := (rename_fields xid_start xid_continue).
Local Abbreviation is_id := (isidentifier xid_start xid_continue).

Lemma positional_name_underscore index :
  startswith_underscore (py "_" ++ decimal index) = true.
Proof. reflexivity. Qed.

(** A label that is no identifier is never a field name. *)
Lemma renamed_field_absent key index seen names :
  is_id key = false -> startswith_underscore key = false ->
  key ∉ fields_of index seen names.
Proof.
  intros Hid Hus. revert index seen.
  induction names as [| name rest IH]; intros index seen; simpl.
  - apply not_elem_of_nil.
  - apply not_elem_of_cons. split; [| apply IH].
    destruct (negb (is_id name) || _ || _ || _) eqn:Hbad.
    + intros ->. simpl in Hus. discriminate Hus.
    + rewrite !orb_false_iff, negb_false_iff in Hbad. intros ->.
      destruct Hbad as [[[Hbad _] _] _]. congruence.
Qed.

(** A label that is an identifier, no keyword, without a leading
    underscore and not repeated keeps its name and its cell. *)
Lemma dict_get_renamed name names :
  is_id name = true -> iskeyword name = false ->
  startswith_underscore name = false -> NoDup names ->
  forall (vals : list value) index seen k,
    name ∉ seen -> names !! k = Some name ->
    dict_get name (zip (fields_of index seen names) vals) = vals !! k.
Proof.
  intros Hid Hkw Hus. induction 1 as [| n0 rest Hn0 Hnd IH];
    intros vals index seen k Hseen Hk; [done |].
  destruct vals as [| v0 vals]; [done |]. simpl.
  destruct k as [| k]; simpl in Hk.
  - injection Hk as ->. rewrite Hid, Hkw, Hus. simpl.
    rewrite bool_decide_eq_false_2 by done. by rewrite decide_True.
  - assert (name <> n0) as Hne.
    { intros ->. apply Hn0. by apply list_elem_of_lookup_2 in Hk. }
    rewrite decide_False.
    + apply (IH vals (S index) (n0 :: seen) k); [| done].
      rewrite not_elem_of_cons. by split.
    + destruct (negb (is_id n0) || _ || _ || _); [| done].
      intros ->. simpl in Hus. discriminate Hus.
Qed.

Lemma id_is_plain_field :
  is_id (py "id") = true /\ iskeyword (py "id") = false
  /\ startswith_underscore (py "id") = false.
Proof. by vm_compute. Qed.

Lemma job_title_not_identifier :
  is_id (py "Job Title") = false
  /\ startswith_underscore (py "Job Title") = false.
Proof. by vm_compute. Qed.

Lemma job_description_not_identifier :
  is_id (py "Job Description") = false
  /\ startswith_underscore (py "Job Description") = false.
Proof. by vm_compute. Qed.

(** [row._asdict().get(key, d)] for a key that is no identifier. *)
Lemma asdict_get_absent key cols row :
  is_id key = false -> startswith_underscore key = false ->
  dict_get key
    (nt_asdict {| nt_fields := fields_of 0%nat [] cols; nt_values := row |})
  = None.
Proof.
  intros Hid Hus. unfold nt_asdict. simpl.
  apply dict_get_py_dict_None. intros Hin.
  apply (renamed_field_absent key 0%nat [] cols Hid Hus).
  apply list_elem_of_fmap in Hin as ([f v] & -> & Hin). simpl.
  apply list_elem_of_lookup in Hin as [i Hi].
  apply lookup_zip_with_Some in Hi as (f' & v' & [= -> ->] & Hf & _).
  by apply list_elem_of_lookup_2 in Hf.
Qed.

End NamedTupleFacts.

(** ** Well-formed tables *)

Lemma col_index_elem_of name cols :
  name ∈ cols ->
  exists k, col_index name cols = inr k /\ cols !! k = Some name.
Proof.
  intros Hin. unfold col_index.
  destruct (list_find (fun c => c = name) cols) as [[k c] |] eqn:Hfind.
  - apply list_find_Some in Hfind as (Hk & -> & _). by exists k.
  - apply list_find_None in Hfind. rewrite Forall_forall in Hfind.
    by destruct (Hfind name Hin).
Qed.

Lemma frame_ok_columns df :
  frame_ok df = true ->
  NoDup (columns df)
  /\ (forall row, row ∈ rows df -> length row = length (columns df))
  /\ exists k, col_index (py "id") (columns df) = inr k
               /\ columns df !! k = Some (py "id").
Proof.
  unfold frame_ok. rewrite !andb_true_iff, !bool_decide_eq_true.
  intros [[Hnd Hlen] Hid]. split; [done |]. split.
  - intros row Hrow. rewrite forallb_forall in Hlen.
    apply Nat.eqb_eq, Hlen. by apply list_elem_of_In.
  - by apply col_index_elem_of.
Qed.

Lemma int_ids_cell df row :
  int_ids df = true -> row ∈ rows df ->
  exists z, id_cell df row = Some (VInt z).
Proof.
  unfold int_ids. rewrite forallb_forall. intros Hall Hrow.
  apply list_elem_of_In, Hall in Hrow.
  destruct (id_cell df row) as [[] |]; try done. by eexists.
Qed.

Lemma zip_fmap_self {A B} (h : A -> B) (l : list A) :
  zip l (h <$> l) = (fun a => (a, h a)) <$> l.
Proof. induction l as [| a l IH]; [done |]. simpl. f_equal. exact IH. Qed.

(** ** Shaping the recommendations *)

Section Shaping.

Variable argsort : list Q -> list nat.
Variable round4 : Q -> Q.
Variable int_of_str : pystr -> res Z.
Variables xid_start xid_continue : N -> bool.
Variable job_metadata : DataFrame.
Variable similarities : list Q.

Hypothesis Hframe : frame_ok job_metadata = true.
Hypothesis Hids : int_ids job_metadata = true.
Hypothesis Haligned : length (rows job_metadata) = length similarities.

Local Abbreviation fields :=
  (rename_fields xid_start xid_continue 0%nat [] (columns job_metadata)).

Lemma recommendation_record i row :
  rows job_metadata !! i = Some row ->
  recommendation round4 int_of_str similarities
    (i, {| nt_fields := fields; nt_values := row |})
  = inr (record_of round4 job_metadata similarities i).
Proof.
  intros Hrow. unfold recommendation, record_of. rewrite Hrow. simpl.
  assert (Hin : row ∈ rows job_metadata) by by eapply list_elem_of_lookup_2.
  destruct (int_ids_cell _ _ Hids Hin) as [z Hz]. rewrite Hz.
  destruct (frame_ok_columns _ Hframe) as (Hnd & _ & k & Hk & Hcol).
  unfold id_cell in Hz. rewrite Hk in Hz.
  destruct (id_is_plain_field xid_start xid_continue) as (Hid & Hkw & Hus).
  unfold nt_getattr. simpl.
  rewrite (dict_get_renamed _ _ _ _ Hid Hkw Hus Hnd row 0%nat [] k)
    by (done || apply not_elem_of_nil).
  rewrite Hz. simpl.
  destruct (job_title_not_identifier xid_start xid_continue) as [Ht1 Ht2].
  destruct (job_description_not_identifier xid_start xid_continue)
    as [Hd1 Hd2].
  rewrite !asdict_get_absent by done. simpl.
  apply lookup_lt_Some in Hrow. rewrite Haligned in Hrow.
  apply lookup_lt_is_Some_2 in Hrow as [x Hx].
  unfold score_at. by rewrite Hx.
Qed.

Lemma recommendations_records :
  (forall i, i ∈ top_indices argsort similarities ->
             (i < length similarities)%nat) ->
  recommendations argsort round4 int_of_str xid_start xid_continue
    job_metadata similarities
  = inr (record_of round4 job_metadata similarities
           <$> top_indices argsort similarities).
Proof.
  intros Hbound. unfold recommendations.
  set (top := top_indices argsort similarities) in *.
  set (row_at := fun i => default [] (rows job_metadata !! i)).
  assert (Hrow : forall i, i ∈ top ->
            rows job_metadata !! i = Some (row_at i)).
  { intros i Hi. apply Hbound in Hi. rewrite <- Haligned in Hi.
    apply lookup_lt_is_Some_2 in Hi as [row Hrow].
    unfold row_at. by rewrite Hrow. }
  unfold df_iloc. rewrite (res_map_ok _ row_at).
  2:{ intros i Hi. by rewrite (Hrow i Hi). }
  simpl. unfold itertuples. simpl. rewrite <- list_fmap_compose.
  rewrite zip_fmap_self.
  rewrite (res_map_ok _
    (fun a => record_of round4 job_metadata similarities a.1)).
  - by rewrite <- list_fmap_compose.
  - intros a Ha. apply list_elem_of_fmap in Ha as (i & -> & Hi). simpl.
    apply recommendation_record. by apply Hrow.
Qed.

End Shaping.

(** ** Job lookup *)

Lemma id_matches_cell df z k :
  col_index (py "id") (columns df) = inr k ->
  forall row, cell_eq_int k z row = id_matches df z row.
Proof. intros Hk row. unfold id_matches, id_cell. by rewrite Hk. Qed.

Lemma filter_ext_bool {A} (f g : A -> bool) (l : list A) :
  (forall a, f a = g a) -> List.filter f l = List.filter g l.
Proof.
  intros Hfg. induction l as [| a l IH]; [done |].
  simpl. rewrite Hfg. destruct (g a); [f_equal |]; exact IH.
Qed.

Lemma filter_head_split {A} (f : A -> bool) (l : list A) x rest :
  List.filter f l = x :: rest ->
  exists pre post, l = pre ++ x :: post
    /\ Forall (fun a => f a = false) pre /\ f x = true.
Proof.
  induction l as [| a l IH]; [done |]. simpl.
  destruct (f a) eqn:Hfa.
  - intros [= -> _]. exists [], l. by repeat split.
  - intros Hfilter. destruct (IH Hfilter) as (pre & post & -> & Hpre & Hx).
    exists (a :: pre), post. repeat split; [| done]. by constructor.
Qed.

Lemma get_job_detail_absent df z :
  frame_ok df = true ->
  List.filter (id_matches df z) (rows df) = [] ->
  get_job_detail df z = Response 404 (detail "Job not found").
Proof.
  intros Hok Hnone. destruct (frame_ok_columns _ Hok) as (_ & _ & k & Hk & _).
  unfold get_job_detail, df_where_eq. rewrite Hk. simpl.
  rewrite (filter_ext_bool _ _ _ (id_matches_cell df z k Hk)), Hnone.
  done.
Qed.

Lemma get_job_detail_found df z row rest :
  frame_ok df = true ->
  List.filter (id_matches df z) (rows df) = row :: rest ->
  get_job_detail df z = Response 200 (VDict (zip (columns df) row))
  /\ (zip (columns df) row).*1 = columns df.
Proof.
  intros Hok Hsome.
  destruct (frame_ok_columns _ Hok) as (Hnd & Hlen & k & Hk & Hcol).
  assert (Hrow : row ∈ rows df).
  { apply list_elem_of_In. eapply proj1, List.filter_In.
    rewrite Hsome. by left. }
  assert (Hkeys : (zip (columns df) row).*1 = columns df).
  { apply fst_zip. by rewrite (Hlen row Hrow). }
  assert (Hdict : py_dict (zip (columns df) row) = zip (columns df) row).
  { apply py_dict_NoDup. by rewrite Hkeys. }
  split; [| done].
  unfold get_job_detail, df_where_eq. rewrite Hk. simpl.
  rewrite (filter_ext_bool _ _ _ (id_matches_cell df z k Hk)), Hsome.
  unfold df_empty, to_dict_records. simpl. rewrite Hdict.
  by destruct (columns df).
Qed.

(** C4. On a well-formed metadata table, [get_job_detail] answers 404
    with [{"detail": "Job not found"}] exactly when no row has the
    requested [id]; and when exactly one row has it, the answer is 200
    with that row as one flat object: each column label paired with the
    row's cell, all columns present. *)
Theorem get_job_detail_lookup (job_metadata : DataFrame) (job_id : Z) :
  frame_ok job_metadata = true ->
  (get_job_detail job_metadata job_id = Response 404 (detail "Job not found")
   <-> forall row, row ∈ rows job_metadata ->
                   id_matches job_metadata job_id row = false)
  /\ (forall row,
        List.filter (id_matches job_metadata job_id) (rows job_metadata)
        = [row] ->
        row ∈ rows job_metadata
        /\ get_job_detail job_metadata job_id
           = Response 200 (VDict (zip (columns job_metadata) row))
        /\ (zip (columns job_metadata) row).*1 = columns job_metadata).
Proof.
  intros Hok. split.
  - destruct (List.filter (id_matches job_metadata job_id) (rows job_metadata))
      as [| row rest] eqn:Hfilter.
    + split; [| intros _; by apply get_job_detail_absent].
      intros _ row Hrow. apply not_true_is_false. intros Hmatch.
      assert (In row []) as [].
      rewrite <- Hfilter. apply List.filter_In. split; [| done].
      by apply list_elem_of_In.
    + destruct (get_job_detail_found _ _ _ _ Hok Hfilter) as [-> _].
      split; [done |]. intros Hnone.
      assert (In row (row :: rest)) as Hin by by left.
      rewrite <- Hfilter in Hin. apply List.filter_In in Hin as [Hin Hmatch].
      apply list_elem_of_In, Hnone in Hin. congruence.
  - intros row Hone.
    destruct (get_job_detail_found _ _ _ _ Hok Hone) as [Hresp Hkeys].
    split; [| done]. apply list_elem_of_In.
    eapply proj1, List.filter_In. rewrite Hone. by left.
Qed.

Lemma get_job_detail_lookup_witness :
  let row := [VInt 104; VStr (py "Pilot"); VStr (py "Flies aircraft")] in
  frame_ok sample_jobs = true
  /\ List.filter (id_matches sample_jobs 104) (rows sample_jobs) = [row]
  /\ get_job_detail sample_jobs 104
     = Response 200
         (VDict [ (py "id", VInt 104); (py "Job Title", VStr (py "Pilot"));
                  (py "Job Description", VStr (py "Flies aircraft")) ]).
Proof.
  intros row. split; [reflexivity |]. split; [reflexivity |].
  destruct (get_job_detail_lookup sample_jobs 104 eq_refl) as [_ Hone].
  exact (proj1 (proj2 (Hone row eq_refl))).
Defined.

(** C10. When several rows of a well-formed table have the requested
    [id], [get_job_detail] answers 200 with the first of them in table
    order. *)
Theorem get_job_detail_duplicates (job_metadata : DataFrame) (job_id : Z) :
  frame_ok job_metadata = true ->
  (1 < length (List.filter (id_matches job_metadata job_id)
                 (rows job_metadata)))%nat ->
  exists pre row post,
    rows job_metadata = pre ++ row :: post
    /\ Forall (fun r => id_matches job_metadata job_id r = false) pre
    /\ id_matches job_metadata job_id row = true
    /\ get_job_detail job_metadata job_id
       = Response 200 (VDict (zip (columns job_metadata) row)).
Proof.
  intros Hok Hmany.
  destruct (List.filter (id_matches job_metadata job_id) (rows job_metadata))
    as [| row rest] eqn:Hfilter; [simpl in Hmany; lia |].
  destruct (filter_head_split _ _ _ _ Hfilter) as (pre & post & Hsplit & Hpre & Hrow).
  destruct (get_job_detail_found _ _ _ _ Hok Hfilter) as [Hresp _].
  by exists pre, row, post.
Qed.

Lemma get_job_detail_duplicates_witness :
  frame_ok sample_jobs = true
  /\ (1 < length (List.filter (id_matches sample_jobs 102)
                    (rows sample_jobs)))%nat
  /\ exists pre row post,
    rows sample_jobs = pre ++ row :: post
    /\ Forall (fun r => id_matches sample_jobs 102 r = false) pre
    /\ id_matches sample_jobs 102 row = true
    /\ get_job_detail sample_jobs 102
       = Response 200 (VDict (zip (columns sample_jobs) row)).
Proof.
  assert (Hmany : (1 < length (List.filter (id_matches sample_jobs 102)
                                 (rows sample_jobs)))%nat)
    by (vm_compute; lia).
  split; [reflexivity |]. split; [exact Hmany |].
  exact (get_job_detail_duplicates sample_jobs 102 eq_refl Hmany).
Defined.

Example get_job_detail_duplicates_sample :
  get_job_detail sample_jobs 102
  = Response 200
      (VDict [ (py "id", VInt 102); (py "Job Title", VStr (py "Chef"));
               (py "Job Description", VStr (py "Runs the kitchen")) ]).
Proof. reflexivity. Qed.

Example get_job_detail_missing_sample :
  get_job_detail sample_jobs 99999 = Response 404 (detail "Job not found").
Proof. reflexivity. Qed.

(** ** The order on strings *)

Lemma lex_leb_refl a : lex_leb a a = true.
Proof.
  induction a as [| x a IH]; [done |]. simpl.
  by rewrite N.eqb_refl, IH, orb_true_r.
Qed.

Lemma lex_leb_total a b : lex_leb a b = true \/ lex_leb b a = true.
Proof.
  revert b. induction a as [| x a IH]; intros [| y b]; simpl; auto.
  destruct (N.lt_trichotomy x y) as [Hlt | [-> | Hgt]].
  - left. apply N.ltb_lt in Hlt. by rewrite Hlt.
  - rewrite N.eqb_refl, N.ltb_irrefl. simpl. apply IH.
  - right. apply N.ltb_lt in Hgt. by rewrite Hgt.
Qed.

Lemma lex_leb_trans a b c :
  lex_leb a b = true -> lex_leb b c = true -> lex_leb a c = true.
Proof.
  revert b c. induction a as [| x a IH]; intros [| y b] [| z c]; simpl;
    try done.
  rewrite !orb_true_iff, !andb_true_iff, !N.ltb_lt, !N.eqb_eq.
  intros [Hxy | [-> Hab]] [Hyz | [-> Hbc]].
  - left. lia.
  - by left.
  - by left.
  - right. split; [done |]. by apply (IH b).
Qed.

Lemma lex_leb_antisym a b :
  lex_leb a b = true -> lex_leb b a = true -> a = b.
Proof.
  revert b. induction a as [| x a IH]; intros [| y b]; simpl; try done.
  rewrite !orb_true_iff, !andb_true_iff, !N.ltb_lt, !N.eqb_eq.
  intros [Hxy | [-> Hab]] [Hyx | [Heq Hba]]; try lia.
  f_equal. by apply IH.
Qed.

#[global] Instance lex_le_antisym : AntiSymm (=) lex_le.
Proof. intros a b. apply lex_leb_antisym. Qed.

#[global] Instance lex_le_total : Total lex_le.
Proof. intros a b. apply lex_leb_total. Qed.

#[global] Instance lex_le_trans : Transitive lex_le.
Proof. intros a b c. apply lex_leb_trans. Qed.

(** ** The category list *)

(** C7. For a classifier whose label set holds no label twice,
    [get_all_categories] answers 200 with a list that has the same
    labels, is in ascending lexicographic order, and holds no label
    twice. It is the only arrangement of the labels in that order, so
    the sorting algorithm does not matter. *)
Theorem get_all_categories_sorted (classes_ : list pystr) :
  NoDup classes_ ->
  exists categories,
    get_all_categories classes_
    = Response 200 (VDict [(py "categories", VList (VStr <$> categories))])
    /\ categories ≡ₚ classes_
    /\ StronglySorted lex_le categories
    /\ NoDup categories
    /\ (forall other, other ≡ₚ classes_ -> StronglySorted lex_le other ->
          other = categories).
Proof.
  intros Hnd. exists (py_sorted classes_). unfold py_sorted.
  assert (Hsorted : StronglySorted lex_le (merge_sort lex_le classes_))
    by (apply StronglySorted_merge_sort; apply _).
  split; [done |]. split; [apply merge_sort_Permutation |].
  split; [done |].
  split; [by rewrite merge_sort_Permutation |].
  intros other Hperm Hother.
  apply (StronglySorted_unique lex_le); [done | done |].
  by rewrite merge_sort_Permutation.
Qed.

Lemma sample_labels_NoDup : NoDup sample_labels.
Proof. apply (bool_decide_eq_true_1 _). by vm_compute. Qed.

Lemma get_all_categories_sorted_witness :
  NoDup sample_labels
  /\ exists categories,
       get_all_categories sample_labels
       = Response 200 (VDict [(py "categories", VList (VStr <$> categories))])
       /\ categories ≡ₚ sample_labels
       /\ StronglySorted lex_le categories
       /\ NoDup categories
       /\ (forall other, other ≡ₚ sample_labels ->
             StronglySorted lex_le other -> other = categories).
Proof.
  split; [exact sample_labels_NoDup |].
  exact (get_all_categories_sorted sample_labels sample_labels_NoDup).
Defined.

Example get_all_categories_sample :
  get_all_categories sample_labels
  = Response 200
      (VDict [(py "categories",
               VList [ VStr (py "Design"); VStr (py "Engineering");
                       VStr (py "Finance"); VStr (py "Sales") ])]).
Proof. reflexivity. Qed.

(** ** A stable argsort meets the contract *)

Lemma StronglySorted_lookup_lt {A} (R : relation A) (l : list A) i j a b :
  StronglySorted R l -> (i < j)%nat ->
  l !! i = Some a -> l !! j = Some b -> R a b.
Proof.
  intros Hsorted. revert i j.
  induction Hsorted as [| x l _ IH Hx]; intros i j Hij Ha Hb; [done |].
  destruct j as [| j]; [lia |]. simpl in Hb.
  destruct i as [| i]; simpl in Ha.
  - injection Ha as ->. rewrite Forall_forall in Hx. apply Hx.
    by eapply list_elem_of_lookup_2.
  - apply (IH i j); [lia | done | done].
Qed.

#[global] Instance score_le_total similarities : Total (score_le similarities).
Proof.
  intros a b. unfold score_le. rewrite !Qle_bool_iff.
  destruct (Qlt_le_dec (score_at similarities a) (score_at similarities b));
    [left; by apply Qlt_le_weak | by right].
Qed.

#[global] Instance score_le_trans similarities :
  Transitive (score_le similarities).
Proof.
  intros a b c. unfold score_le. rewrite !Qle_bool_iff. apply Qle_trans.
Qed.

Lemma stable_argsort_is_argsort similarities :
  is_argsort similarities (stable_argsort similarities).
Proof.
  unfold stable_argsort. split; [apply merge_sort_Permutation |].
  intros i j a b Hij Ha Hb.
  destruct (decide (i = j)) as [-> | Hne].
  - rewrite Ha in Hb. injection Hb as ->. apply Qle_refl.
  - apply Qle_bool_iff.
    eapply (StronglySorted_lookup_lt (score_le similarities) _ i j a b);
      [apply StronglySorted_merge_sort; apply _ | lia | exact Ha | exact Hb].
Qed.

(** ** The recommendation handler *)

Lemma recommend_jobs_with_text
    (lower : pystr -> pystr) (similarity : pystr -> list Q)
    (argsort : list Q -> list nat) (round4 : Q -> Q)
    (int_of_str : pystr -> res Z) (xid_start xid_continue : N -> bool)
    (job_metadata : DataFrame) (d : list (pystr * value)) (text : pystr)
    (recs : list value) :
  dict_get (py "text") d = Some (VStr text) ->
  recommendations argsort round4 int_of_str xid_start xid_continue
    job_metadata (similarity (basic_preprocess lower text)) = inr recs ->
  recommend_jobs lower similarity argsort round4 int_of_str
    xid_start xid_continue job_metadata (VDict d)
  = ([Normalize; Vectorize; Rank],
     inr (Response 200 (VDict [(py "recommendations", VList recs)]))).
Proof.
  intros Htext Hrecs. unfold recommend_jobs.
  destruct d as [| item d]; [done |].
  cbn [truthy negb]. unfold py_contains, py_get. rewrite Htext.
  rewrite bool_decide_eq_true_2 by eauto.
  unfold mbind, traced_bind, lift, call, call_basic_preprocess. simpl.
  by rewrite Hrecs.
Qed.

(** C1. Whatever similarity vector the vectorizer yields for the
    normalized text, over a well-formed table with one row per score,
    [recommend_jobs] answers 200 with exactly [min 5 n] recommendations.
    The [k]-th one is built from the row at position [top[k]], where
    [top] lists distinct row positions, no position outside [top] scores
    higher than one inside, and the scores along [top] never increase.
    The order of [argsort] among equal scores is not used. *)
Theorem recommend_jobs_top_five
    (lower : pystr -> pystr) (similarity : pystr -> list Q)
    (argsort : list Q -> list nat) (round4 : Q -> Q)
    (int_of_str : pystr -> res Z) (xid_start xid_continue : N -> bool)
    (job_metadata : DataFrame) (d : list (pystr * value)) (text : pystr) :
  let similarities := similarity (basic_preprocess lower text) in
  let n := length similarities in
  let top := top_indices argsort similarities in
  dict_get (py "text") d = Some (VStr text) ->
  is_argsort similarities (argsort similarities) ->
  frame_ok job_metadata = true ->
  int_ids job_metadata = true ->
  length (rows job_metadata) = n ->
  exists recs,
    recommend_jobs lower similarity argsort round4 int_of_str
      xid_start xid_continue job_metadata (VDict d)
    = ([Normalize; Vectorize; Rank],
       inr (Response 200 (VDict [(py "recommendations", VList recs)])))
    /\ length recs = Nat.min 5 n
    /\ recs = record_of round4 job_metadata similarities <$> top
    /\ NoDup top
    /\ (forall i, i ∈ top -> (i < n)%nat)
    /\ (forall i j, i ∈ top -> (j < n)%nat -> j ∉ top ->
          (score_at similarities j <= score_at similarities i)%Q)
    /\ (forall p q a b, (p <= q)%nat ->
          top !! p = Some a -> top !! q = Some b ->
          (score_at similarities b <= score_at similarities a)%Q).
Proof.
  intros similarities n top Htext Hsort Hframe Hids Haligned.
  pose proof (top_bound _ _ Hsort) as Hbound.
  exists (record_of round4 job_metadata similarities <$> top).
  split.
  { apply (recommend_jobs_with_text _ _ _ _ _ _ _ _ _ text); [done |].
    by apply recommendations_records. }
  split. { rewrite length_fmap. apply (top_length _ _ Hsort). }
  split; [done |].
  split. { apply (top_NoDup _ _ Hsort). }
  split; [exact Hbound |].
  split; [apply (top_dominates _ _ Hsort) | apply (top_descending _ _ Hsort)].
Qed.

Lemma recommend_jobs_top_five_witness :
  dict_get (py "text") [(py "text", VStr (py "Python developer"))]
  = Some (VStr (py "Python developer"))
  /\ frame_ok sample_jobs = true
  /\ int_ids sample_jobs = true
  /\ length (rows sample_jobs) = length sample_similarities
  /\ exists recs,
       recommend_jobs ascii_lower (fun _ => sample_similarities)
         stable_argsort round4_decimal no_int_of_str no_xid no_xid
         sample_jobs (text_body "Python developer")
       = ([Normalize; Vectorize; Rank],
          inr (Response 200 (VDict [(py "recommendations", VList recs)])))
       /\ length recs = 5%nat
       /\ top_indices stable_argsort sample_similarities
          = [5; 3; 1; 4; 6]%nat.
Proof.
  repeat (split; [reflexivity |]).
  destruct (recommend_jobs_top_five ascii_lower (fun _ => sample_similarities)
              stable_argsort round4_decimal no_int_of_str no_xid no_xid
              sample_jobs [(py "text", VStr (py "Python developer"))]
              (py "Python developer") eq_refl
              (stable_argsort_is_argsort sample_similarities)
              eq_refl eq_refl eq_refl)
    as (recs & Hresp & Hlen & _).
  exists recs. repeat split; [exact Hresp | exact Hlen].
Defined.

Example recommend_jobs_sample_ids :
  (fun rec => match rec with
              | VDict fields => dict_get (py "job_id") fields
              | _ => None
              end)
  <$> (record_of round4_decimal sample_jobs sample_similarities
       <$> top_indices stable_argsort sample_similarities)
  = [Some (VInt 106); Some (VInt 104); Some (VInt 102); Some (VInt 105);
     Some (VInt 102)].
Proof. reflexivity. Qed.

Example round4_decimal_sample :
  round4_decimal (123456 # 1000000) = (1235 # 10000)%Q.
Proof. reflexivity. Qed.

(** C3. The table has the columns [Job Title] and [Job Description], and
    the only row has the title "Data Engineer" and the description
    "Builds pipelines"; the recommendation returned for it carries the
    defaults ["N/A"] and [""] instead. [itertuples] renames both
    columns, whose labels are no identifiers, to [_1] and [_2], so the
    lookups by label in [_asdict()] never succeed. The [job_id] is the
    integer of the [id] column, and the score is [round(x, 4)]. *)
Theorem recommendation_drops_title_and_description
    (round4 : Q -> Q) (int_of_str : pystr -> res Z)
    (xid_start xid_continue : N -> bool) :
  rename_fields xid_start xid_continue 0 [] (columns titled_job)
  = [py "id"; py "_1"; py "_2"]
  /\ recommend_jobs ascii_lower (fun _ => [1 # 2]%Q) stable_argsort round4
       int_of_str xid_start xid_continue titled_job
       (text_body "data engineer")
     = ([Normalize; Vectorize; Rank],
        inr (Response 200
               (VDict [(py "recommendations",
                        VList [VDict
                          [ (py "job_id", VInt 7);
                            (py "job_title", VStr (py "N/A"));
                            (py "description", VStr []);
                            (py "similarity_score",
                             VFloat (round4 (1 # 2)%Q)) ]])]))).
Proof. split; reflexivity. Qed.

(** On every well-formed table the title and the description of every
    recommendation are the defaults. *)
Lemma recommendations_always_default
    (argsort : list Q -> list nat) (round4 : Q -> Q)
    (int_of_str : pystr -> res Z) (xid_start xid_continue : N -> bool)
    (job_metadata : DataFrame) (similarities : list Q) (rec : value) :
  is_argsort similarities (argsort similarities) ->
  frame_ok job_metadata = true ->
  int_ids job_metadata = true ->
  length (rows job_metadata) = length similarities ->
  forall recs,
    recommendations argsort round4 int_of_str xid_start xid_continue
      job_metadata similarities = inr recs ->
    rec ∈ recs ->
    exists fields,
      rec = VDict fields
      /\ dict_get (py "job_title") fields = Some (VStr (py "N/A"))
      /\ dict_get (py "description") fields = Some (VStr []).
Proof.
  intros Hsort Hframe Hids Haligned recs Hrecs Hrec.
  rewrite recommendations_records in Hrecs
    by (done || apply (top_bound _ _ Hsort)).
  injection Hrecs as <-.
  apply list_elem_of_fmap in Hrec as (i & -> & _).
  unfold record_of. eexists. split; [done |]. by split.
Qed.

(** C8. A body that is a non-zero number or [true] has no key [text],
    yet the membership test raises [TypeError]; a list or a string that
    contains ["text"] passes the test and [data.get] raises
    [AttributeError]. In each case the exception leaves the view, and no
    400 is returned. Nothing was normalized, vectorized or ranked. *)
Theorem recommend_jobs_non_object_body
    (lower : pystr -> pystr) (similarity : pystr -> list Q)
    (argsort : list Q -> list nat) (round4 : Q -> Q)
    (int_of_str : pystr -> res Z) (xid_start xid_continue : N -> bool)
    (job_metadata : DataFrame) :
  let handler := recommend_jobs lower similarity argsort round4 int_of_str
                   xid_start xid_continue job_metadata in
  handler (VInt 5) = ([], inl TypeError)
  /\ handler (VBool true) = ([], inl TypeError)
  /\ handler (VList [VStr (py "text")]) = ([], inl AttributeError)
  /\ handler (VStr (py "some text")) = ([], inl AttributeError).
Proof. repeat split. Qed.

(** Without a body, and with an object that has no key [text], the
    answer is the 400 and nothing else happens. *)
Lemma recommend_jobs_missing_text
    (lower : pystr -> pystr) (similarity : pystr -> list Q)
    (argsort : list Q -> list nat) (round4 : Q -> Q)
    (int_of_str : pystr -> res Z) (xid_start xid_continue : N -> bool)
    (job_metadata : DataFrame) (data : value) :
  data = VNone \/ (exists d, data = VDict d /\ dict_get (py "text") d = None) ->
  recommend_jobs lower similarity argsort round4 int_of_str
    xid_start xid_continue job_metadata data
  = ([], inr (Response 400 (detail "Missing 'text' in request body"))).
Proof.
  intros [-> | (d & -> & Hd)]; [done |].
  unfold recommend_jobs. destruct d as [| item d]; [done |].
  cbn [truthy negb]. unfold py_contains. rewrite Hd.
  by rewrite bool_decide_eq_false_2 by (by intros [? ?]).
Qed.

(* ================================================================= *)
(** * Further properties *)

(** ** The normalizer: what is kept and what is dropped *)

Lemma is_space_not_az c : is_space c = true -> is_az c = false.
Proof.
  intros Hsp. destruct (is_az c) eqn:Haz; [| done].
  by rewrite (is_az_not_space _ Haz) in Hsp.
Qed.

Lemma filter_az_whitespace w :
  Forall (fun c => is_space c = true) w -> List.filter is_az w = [].
Proof.
  induction 1 as [| c w Hc _ IH]; [done |]. simpl.
  by rewrite (is_space_not_az _ Hc).
Qed.

Lemma lstrip_split_ws text :
  exists pre, text = pre ++ lstrip text
    /\ Forall (fun c => is_space c = true) pre.
Proof.
  induction text as [| c rest (pre & Heq & Hpre)]; simpl.
  - by exists [].
  - destruct (is_space c) eqn:Hsp.
    + exists (c :: pre). split; [by rewrite Heq at 1 | by constructor].
    + by exists [].
Qed.

Lemma rstrip_split_ws text :
  exists suf, text = rstrip text ++ suf
    /\ Forall (fun c => is_space c = true) suf.
Proof.
  unfold rstrip. destruct (lstrip_split_ws (reverse text)) as (pre & Heq & Hpre).
  exists (reverse pre). split.
  - rewrite <- reverse_app, <- Heq. by rewrite reverse_involutive.
  - by apply Forall_reverse.
Qed.

Lemma filter_az_strip text :
  List.filter is_az (strip text) = List.filter is_az text.
Proof.
  unfold strip.
  destruct (lstrip_split_ws text) as (pre & Heq1 & Hpre).
  destruct (rstrip_split_ws (lstrip text)) as (suf & Heq2 & Hsuf).
  rewrite Heq1 at 2. rewrite Heq2 at 2.
  rewrite !List.filter_app, (filter_az_whitespace _ Hpre),
    (filter_az_whitespace _ Hsuf).
  by rewrite app_nil_r.
Qed.

Lemma filter_az_sub_ws_runs_from in_run text :
  List.filter is_az (sub_ws_runs_from in_run text) = List.filter is_az text.
Proof.
  revert in_run. induction text as [| c rest IH]; intros in_run; [done |].
  simpl. destruct (is_space c) eqn:Hsp.
  - rewrite (is_space_not_az _ Hsp). destruct in_run; [apply IH |].
    simpl. apply IH.
  - simpl. destruct (is_az c); [f_equal |]; apply IH.
Qed.

Lemma filter_az_sub_non_az_ws text :
  List.filter is_az (sub_non_az_ws text) = List.filter is_az text.
Proof.
  unfold sub_non_az_ws. induction text as [| c rest IH]; [done |].
  simpl. destruct (is_az c) eqn:Haz; simpl.
  - rewrite Haz. f_equal. exact IH.
  - destruct (is_space c); simpl; [rewrite Haz |]; exact IH.
Qed.

Lemma letters_of_basic_preprocess (lower : pystr -> pystr) text :
  List.filter is_az (basic_preprocess lower text)
  = List.filter is_az (lower text).
Proof.
  unfold basic_preprocess, sub_ws_runs.
  by rewrite filter_az_strip, filter_az_sub_ws_runs_from,
    filter_az_sub_non_az_ws.
Qed.

(** X1. The letters of the result are the letters [a-z] of the
    lower-cased text, all of them and in their order: the normalizer
    drops and inserts nothing but non-letters. *)
Theorem basic_preprocess_keeps_letters (lower : pystr -> pystr) (text : pystr) :
  List.filter is_az (basic_preprocess lower text)
  = List.filter is_az (lower text).
Proof. apply letters_of_basic_preprocess. Qed.

Lemma filter_az_nil text :
  List.filter is_az text = [] <-> Forall (fun c => is_az c = false) text.
Proof.
  induction text as [| c rest IH]; [by split |]. simpl.
  destruct (is_az c) eqn:Haz.
  - split; [done |]. intros H. apply Forall_cons in H as [H _]. congruence.
  - rewrite IH. split; [by constructor |]. intros H.
    by apply Forall_cons in H as [_ H].
Qed.

(** X2. The result is the empty string exactly when the lower-cased text
    has no letter [a-z]: digits, punctuation and whitespace alone leave
    nothing to vectorize. *)
Theorem basic_preprocess_empty_iff (lower : pystr -> pystr) (text : pystr) :
  basic_preprocess lower text = []
  <-> Forall (fun c => is_az c = false) (lower text).
Proof.
  rewrite <- filter_az_nil, <- letters_of_basic_preprocess.
  split; [by intros -> |]. intros Hnone.
  destruct (basic_preprocess_shape lower text) as (Hall & _ & Hhd & _).
  destruct (basic_preprocess lower text) as [| c out]; [done |].
  exfalso. apply Forall_cons in Hall as [[Haz | ->] _]; [| by apply Hhd].
  simpl in Hnone. by rewrite Haz in Hnone.
Qed.

(** ** The normalizer on ASCII text *)

Lemma sub_ws_runs_true_head text c :
  head (sub_ws_runs_from true text) = Some c -> is_space c = false.
Proof.
  induction text as [| c0 rest IH]; [done |]. simpl.
  destruct (is_space c0) eqn:Hsp; [exact IH |]. by intros [= <-].
Qed.

Lemma lstrip_sub_ws_runs in_run text :
  lstrip (sub_ws_runs_from in_run text) = sub_ws_runs_from true text.
Proof.
  assert (Htrue : forall t,
            lstrip (sub_ws_runs_from true t) = sub_ws_runs_from true t).
  { intros t. apply lstrip_id, sub_ws_runs_true_head. }
  destruct in_run; [apply Htrue |].
  destruct text as [| c rest]; [done |]. simpl.
  destruct (is_space c) eqn:Hsp; simpl; [apply Htrue | by rewrite Hsp].
Qed.

Lemma strip_sub_ws_runs text :
  strip (sub_ws_runs text) = rstrip (sub_ws_runs_from true text).
Proof. unfold strip, sub_ws_runs. by rewrite lstrip_sub_ws_runs. Qed.

Lemma sub_ws_runs_true_leading w text :
  Forall (fun c => is_space c = true) w ->
  sub_ws_runs_from true (w ++ text) = sub_ws_runs_from true text.
Proof. induction 1 as [| c w Hc _ IH]; [done |]. simpl. by rewrite Hc. Qed.

Lemma sub_ws_runs_run in_run w text :
  Forall (fun c => is_space c = true) w -> w <> [] ->
  sub_ws_runs_from in_run (w ++ text)
  = sub_ws_runs_from in_run (SPACE :: text).
Proof.
  intros Hw Hne. destruct Hw as [| c w Hc Hw]; [done |]. simpl.
  by rewrite Hc, (sub_ws_runs_true_leading _ _ Hw).
Qed.

Lemma sub_ws_runs_trailing in_run text w :
  Forall (fun c => is_space c = true) w ->
  exists e, (e = [] \/ e = [SPACE])
    /\ sub_ws_runs_from in_run (text ++ w) = sub_ws_runs_from in_run text ++ e.
Proof.
  intros Hw. revert in_run. induction text as [| c rest IH]; intros in_run.
  - simpl. destruct Hw as [| c w Hc Hw]; [exists []; by split; [left |] |].
    simpl. rewrite Hc.
    rewrite <- (app_nil_r w), (sub_ws_runs_true_leading _ _ Hw). simpl.
    destruct in_run; [exists [] | exists [SPACE]]; split; auto.
  - simpl. destruct (is_space c).
    + destruct (IH true) as (e & He & ->).
      destruct in_run; exists e; by split.
    + destruct (IH false) as (e & He & ->). exists e. by split.
Qed.

Lemma rstrip_snoc_space text e :
  e = [] \/ e = [SPACE] -> rstrip (text ++ e) = rstrip text.
Proof.
  intros [-> | ->]; [by rewrite app_nil_r |].
  unfold rstrip. by rewrite reverse_snoc.
Qed.

(** The last two steps do not see whitespace around the text, nor the
    length or the kind of a whitespace run inside it. *)
Lemma strip_runs_outer pre text post :
  Forall (fun c => is_space c = true) pre ->
  Forall (fun c => is_space c = true) post ->
  strip (sub_ws_runs (pre ++ text ++ post)) = strip (sub_ws_runs text).
Proof.
  intros Hpre Hpost. rewrite !strip_sub_ws_runs.
  rewrite (sub_ws_runs_true_leading _ _ Hpre).
  destruct (sub_ws_runs_trailing true text post Hpost) as (e & He & ->).
  by apply rstrip_snoc_space.
Qed.

Lemma strip_runs_inner text1 w text2 :
  Forall (fun c => is_space c = true) w -> w <> [] ->
  strip (sub_ws_runs (text1 ++ w ++ text2))
  = strip (sub_ws_runs (text1 ++ SPACE :: text2)).
Proof.
  intros Hw Hne. unfold sub_ws_runs. f_equal. generalize false.
  induction text1 as [| c rest IH]; intros in_run.
  - simpl. by apply sub_ws_runs_run.
  - simpl. destruct (is_space c); [destruct in_run |]; by rewrite IH.
Qed.

Lemma ascii_lower_app a b :
  ascii_lower (a ++ b) = ascii_lower a ++ ascii_lower b.
Proof. unfold ascii_lower. apply List.map_app. Qed.

Lemma is_space_not_upper c :
  is_space c = true -> c < 128 -> ((65 <=? c) && (c <=? 90)) = false.
Proof.
  unfold is_space.
  rewrite !orb_true_iff, !andb_true_iff, !N.leb_le, !N.eqb_eq.
  intros Hsp Hlt. apply not_true_is_false.
  rewrite andb_true_iff, !N.leb_le. lia.
Qed.

Lemma ascii_lower_whitespace w :
  Forall is_whitespace w -> ascii_lower w = w.
Proof.
  induction 1 as [| c w [Hlt Hsp] _ IH]; [done |].
  unfold ascii_lower in *. simpl. rewrite IH.
  by rewrite (is_space_not_upper _ Hsp Hlt).
Qed.

Lemma sub_non_az_ws_app a b :
  sub_non_az_ws (a ++ b) = sub_non_az_ws a ++ sub_non_az_ws b.
Proof. unfold sub_non_az_ws. apply List.filter_app. Qed.

Lemma sub_non_az_ws_whitespace w :
  Forall is_whitespace w -> sub_non_az_ws w = w.
Proof.
  induction 1 as [| c w [_ Hsp] _ IH]; [done |].
  unfold sub_non_az_ws in *. simpl. by rewrite Hsp, orb_true_r, IH.
Qed.

Lemma is_whitespace_space w :
  Forall is_whitespace w -> Forall (fun c => is_space c = true) w.
Proof. intros H. eapply Forall_impl; [exact H |]. by intros c [_ Hsp]. Qed.

Lemma sub_non_az_ws_junk junk :
  Forall is_junk junk -> sub_non_az_ws (ascii_lower junk) = [].
Proof.
  induction 1 as [| c junk (Hlt & Halpha & Hsp) _ IH]; [done |].
  unfold sub_non_az_ws, ascii_lower in *. simpl. rewrite IH.
  unfold is_ascii_alpha in Halpha. apply orb_false_iff in Halpha as [Hup Hlo].
  rewrite Hup. unfold is_az. by rewrite Hlo, Hsp.
Qed.

Section AsciiText.

Variable lower : pystr -> pystr.

(** On a string of ASCII characters [str.lower] changes [A-Z] to [a-z]
    and nothing else. *)
Hypothesis lower_ascii :
  forall s, Forall is_ascii s -> lower s = ascii_lower s.

Lemma is_whitespace_ascii w : Forall is_whitespace w -> Forall is_ascii w.
Proof. intros H. eapply Forall_impl; [exact H |]. by intros c [Hlt _]. Qed.

Lemma is_junk_ascii junk : Forall is_junk junk -> Forall is_ascii junk.
Proof. intros H. eapply Forall_impl; [exact H |]. by intros c [Hlt _]. Qed.

(** X3. Whitespace before and after an ASCII text does not change the
    result. *)
Theorem basic_preprocess_outer_whitespace (pre text post : pystr) :
  Forall is_ascii text ->
  Forall is_whitespace pre -> Forall is_whitespace post ->
  basic_preprocess lower (pre ++ text ++ post) = basic_preprocess lower text.
Proof.
  intros Htext Hpre Hpost. unfold basic_preprocess.
  rewrite !lower_ascii; [| done |].
  2:{ repeat apply Forall_app_2; auto using is_whitespace_ascii. }
  rewrite !ascii_lower_app, !sub_non_az_ws_app.
  rewrite (ascii_lower_whitespace _ Hpre), (ascii_lower_whitespace _ Hpost).
  rewrite (sub_non_az_ws_whitespace _ Hpre), (sub_non_az_ws_whitespace _ Hpost).
  apply strip_runs_outer; by apply is_whitespace_space.
Qed.

(** X4. Inside an ASCII text a run of whitespace of any length and kind
    (spaces, tabs, line breaks) counts as one space. *)
Theorem basic_preprocess_inner_whitespace (text1 run text2 : pystr) :
  Forall is_ascii text1 -> Forall is_ascii text2 ->
  Forall is_whitespace run -> run <> [] ->
  basic_preprocess lower (text1 ++ run ++ text2)
  = basic_preprocess lower (text1 ++ SPACE :: text2).
Proof.
  intros H1 H2 Hrun Hne. unfold basic_preprocess.
  rewrite !lower_ascii.
  2:{ apply Forall_app_2; [done |]. constructor; [by vm_compute | done]. }
  2:{ repeat apply Forall_app_2; auto using is_whitespace_ascii. }
  rewrite !ascii_lower_app, !sub_non_az_ws_app.
  rewrite (ascii_lower_whitespace _ Hrun), (sub_non_az_ws_whitespace _ Hrun).
  change (ascii_lower (SPACE :: text2)) with (SPACE :: ascii_lower text2).
  change (sub_non_az_ws (SPACE :: ascii_lower text2))
    with (SPACE :: sub_non_az_ws (ascii_lower text2)).
  apply strip_runs_inner; [by apply is_whitespace_space | done].
Qed.

(** X5. ASCII digits and punctuation are deleted without a space in
    their place: the text on both sides is joined. *)
Theorem basic_preprocess_joins_around_junk (text1 junk text2 : pystr) :
  Forall is_ascii text1 -> Forall is_ascii text2 -> Forall is_junk junk ->
  basic_preprocess lower (text1 ++ junk ++ text2)
  = basic_preprocess lower (text1 ++ text2).
Proof.
  intros H1 H2 Hjunk. unfold basic_preprocess.
  rewrite !lower_ascii.
  2:{ by apply Forall_app_2. }
  2:{ repeat apply Forall_app_2; auto using is_junk_ascii. }
  rewrite !ascii_lower_app, !sub_non_az_ws_app.
  by rewrite (sub_non_az_ws_junk _ Hjunk).
Qed.

End AsciiText.

Ltac solve_chars :=
  repeat (apply Forall_cons; split); try apply Forall_nil;
  repeat split; by vm_compute.

Lemma ascii_lower_is_lower_on_ascii :
  forall s, Forall is_ascii s -> ascii_lower s = ascii_lower s.
Proof. done. Qed.

Lemma basic_preprocess_outer_whitespace_witness :
  (forall s, Forall is_ascii s -> ascii_lower s = ascii_lower s)
  /\ Forall is_ascii (py "Data Engineer")
  /\ Forall is_whitespace [9; 32; 32]
  /\ Forall is_whitespace [13; 10]
  /\ basic_preprocess ascii_lower ([9; 32; 32] ++ py "Data Engineer" ++ [13; 10])
     = basic_preprocess ascii_lower (py "Data Engineer").
Proof.
  assert (Htext : Forall is_ascii (py "Data Engineer")) by solve_chars.
  assert (Hpre : Forall is_whitespace [9; 32; 32]) by solve_chars.
  assert (Hpost : Forall is_whitespace [13; 10]) by solve_chars.
  split; [exact ascii_lower_is_lower_on_ascii |].
  repeat (split; [assumption |]).
  exact (basic_preprocess_outer_whitespace ascii_lower
           ascii_lower_is_lower_on_ascii _ _ _ Htext Hpre Hpost).
Defined.

Lemma basic_preprocess_inner_whitespace_witness :
  (forall s, Forall is_ascii s -> ascii_lower s = ascii_lower s)
  /\ Forall is_ascii (py "Data") /\ Forall is_ascii (py "Engineer")
  /\ Forall is_whitespace [32; 9; 10; 32] /\ [32; 9; 10; 32] <> []
  /\ basic_preprocess ascii_lower (py "Data" ++ [32; 9; 10; 32] ++ py "Engineer")
     = basic_preprocess ascii_lower (py "Data" ++ SPACE :: py "Engineer").
Proof.
  assert (H1 : Forall is_ascii (py "Data")) by solve_chars.
  assert (H2 : Forall is_ascii (py "Engineer")) by solve_chars.
  assert (Hrun : Forall is_whitespace [32; 9; 10; 32]) by solve_chars.
  assert (Hne : [32; 9; 10; 32] <> []) by done.
  split; [exact ascii_lower_is_lower_on_ascii |].
  repeat (split; [assumption |]).
  exact (basic_preprocess_inner_whitespace ascii_lower
           ascii_lower_is_lower_on_ascii _ _ _ H1 H2 Hrun Hne).
Defined.

Lemma basic_preprocess_joins_around_junk_witness :
  (forall s, Forall is_ascii s -> ascii_lower s = ascii_lower s)
  /\ Forall is_ascii (py "back") /\ Forall is_ascii (py "end")
  /\ Forall is_junk (py "-")
  /\ basic_preprocess ascii_lower (py "back" ++ py "-" ++ py "end")
     = basic_preprocess ascii_lower (py "back" ++ py "end").
Proof.
  assert (H1 : Forall is_ascii (py "back")) by solve_chars.
  assert (H2 : Forall is_ascii (py "end")) by solve_chars.
  assert (Hjunk : Forall is_junk (py "-")) by solve_chars.
  split; [exact ascii_lower_is_lower_on_ascii |].
  repeat (split; [assumption |]).
  exact (basic_preprocess_joins_around_junk ascii_lower
           ascii_lower_is_lower_on_ascii _ _ _ H1 H2 Hjunk).
Defined.

Example basic_preprocess_junk_sample :
  basic_preprocess ascii_lower (py "Back-end C++ dev, 5yrs")
  = py "backend c dev yrs".
Proof. reflexivity. Qed.

(** ** Ranking: the best match, few jobs, a table that is too short *)

(** X6. With at least one job, the first recommended position carries
    the largest score of the whole vector. *)
Theorem top_indices_best_first (argsort : list Q -> list nat)
    (similarities : list Q) :
  is_argsort similarities (argsort similarities) ->
  similarities <> [] ->
  exists best,
    head (top_indices argsort similarities) = Some best
    /\ (best < length similarities)%nat
    /\ forall j, (j < length similarities)%nat ->
         (score_at similarities j <= score_at similarities best)%Q.
Proof.
  intros Hsort Hne. unfold top_indices.
  pose proof (top_length _ _ Hsort) as Hlen.
  destruct (reverse (last_n 5 (argsort similarities))) as [| best rest] eqn:Htop.
  { destruct similarities; [done | simpl in Hlen; lia]. }
  exists best. split; [done |].
  assert (Hbest : best ∈ reverse (last_n 5 (argsort similarities)))
    by (rewrite Htop; by left).
  split; [by apply (top_bound _ _ Hsort) |].
  intros j Hj.
  destruct (decide (j ∈ reverse (last_n 5 (argsort similarities)))) as [Hin | Hout].
  - apply list_elem_of_lookup in Hin as [q Hq].
    apply (top_descending _ _ Hsort 0%nat q best j); [lia | by rewrite Htop | done].
  - by apply (top_dominates _ _ Hsort).
Qed.

Lemma top_indices_best_first_witness :
  sample_similarities <> []
  /\ exists best,
       head (top_indices stable_argsort sample_similarities) = Some best
       /\ (best < length sample_similarities)%nat
       /\ forall j, (j < length sample_similarities)%nat ->
            (score_at sample_similarities j
             <= score_at sample_similarities best)%Q.
Proof.
  assert (Hne : sample_similarities <> []) by done.
  split; [exact Hne |].
  exact (top_indices_best_first stable_argsort sample_similarities
           (stable_argsort_is_argsort sample_similarities) Hne).
Defined.

(** X7. With at most five jobs every job is recommended: the positions
    returned are all the positions, each once. *)
Theorem top_indices_few_jobs (argsort : list Q -> list nat)
    (similarities : list Q) :
  is_argsort similarities (argsort similarities) ->
  (length similarities <= 5)%nat ->
  top_indices argsort similarities ≡ₚ seq 0 (length similarities).
Proof.
  intros Hsort Hfew. unfold top_indices, last_n.
  rewrite reverse_Permutation, (order_length _ _ Hsort).
  replace (length similarities - 5)%nat with 0%nat by lia.
  simpl. by destruct Hsort.
Qed.

Lemma top_indices_few_jobs_witness :
  (length [1 # 2; 1 # 4; 3 # 4]%Q <= 5)%nat
  /\ top_indices stable_argsort [1 # 2; 1 # 4; 3 # 4]%Q
     ≡ₚ seq 0 (length [1 # 2; 1 # 4; 3 # 4]%Q).
Proof.
  assert (Hfew : (length [1 # 2; 1 # 4; 3 # 4]%Q <= 5)%nat) by (simpl; lia).
  split; [exact Hfew |].
  exact (top_indices_few_jobs stable_argsort _
           (stable_argsort_is_argsort _) Hfew).
Defined.

Lemma res_map_raise {A B} (f : A -> res B) (e : exn) (l : list A) :
  (forall a, a ∈ l -> f a = inl e \/ exists b, f a = inr b) ->
  (exists a, a ∈ l /\ f a = inl e) ->
  res_map f l = inl e.
Proof.
  induction l as [| a l IH]; intros Hall (bad & Hin & Hbad).
  - by apply elem_of_nil in Hin.
  - simpl. destruct (f a) as [e0 | b] eqn:Hfa.
    + destruct (Hall a) as [Heq | [b Heq]]; [by left | |];
        rewrite Hfa in Heq; by simplify_eq.
    + simpl. rewrite IH; [done | |].
      * intros a' Ha'. apply Hall. by right.
      * apply elem_of_cons in Hin as [-> | Hin]; [congruence | by eauto].
Qed.

Lemma recommend_jobs_with_text_raises
    (lower : pystr -> pystr) (similarity : pystr -> list Q)
    (argsort : list Q -> list nat) (round4 : Q -> Q)
    (int_of_str : pystr -> res Z) (xid_start xid_continue : N -> bool)
    (job_metadata : DataFrame) (d : list (pystr * value)) (text : pystr)
    (e : exn) :
  dict_get (py "text") d = Some (VStr text) ->
  recommendations argsort round4 int_of_str xid_start xid_continue
    job_metadata (similarity (basic_preprocess lower text)) = inl e ->
  recommend_jobs lower similarity argsort round4 int_of_str
    xid_start xid_continue job_metadata (VDict d)
  = ([Normalize; Vectorize; Rank], inl e).
Proof.
  intros Htext Hrecs. unfold recommend_jobs.
  destruct d as [| item d]; [done |].
  cbn [truthy negb]. unfold py_contains, py_get. rewrite Htext.
  rewrite bool_decide_eq_true_2 by eauto.
  unfold mbind, traced_bind, lift, call, call_basic_preprocess. simpl.
  by rewrite Hrecs.
Qed.

(** X8. When a recommended position lies beyond the last row of the
    metadata table (more job vectors than metadata rows), [iloc] raises
    [IndexError]; the handler does not catch it, so the request ends in
    an unhandled exception after the ranking and without a response of
    its own. *)
Theorem recommend_jobs_short_table
    (lower : pystr -> pystr) (similarity : pystr -> list Q)
    (argsort : list Q -> list nat) (round4 : Q -> Q)
    (int_of_str : pystr -> res Z) (xid_start xid_continue : N -> bool)
    (job_metadata : DataFrame) (d : list (pystr * value)) (text : pystr) :
  let similarities := similarity (basic_preprocess lower text) in
  dict_get (py "text") d = Some (VStr text) ->
  (exists i, i ∈ top_indices argsort similarities
             /\ (length (rows job_metadata) <= i)%nat) ->
  recommend_jobs lower similarity argsort round4 int_of_str
    xid_start xid_continue job_metadata (VDict d)
  = ([Normalize; Vectorize; Rank], inl IndexError).
Proof.
  intros similarities Htext (bad & Hin & Hbad).
  apply (recommend_jobs_with_text_raises _ _ _ _ _ _ _ _ _ text); [done |].
  unfold recommendations, df_iloc. fold similarities.
  rewrite (res_map_raise _ IndexError); [done | |].
  - intros i _. destruct (rows job_metadata !! i); [right; by eexists | by left].
  - exists bad. split; [done |]. by rewrite lookup_ge_None_2.
Qed.

Lemma recommend_jobs_short_table_witness :
  dict_get (py "text") [(py "text", VStr (py "pilot"))]
  = Some (VStr (py "pilot"))
  /\ (exists i, i ∈ top_indices stable_argsort [1 # 2; 1 # 4; 3 # 4]%Q
                /\ (length (rows short_table) <= i)%nat)
  /\ recommend_jobs ascii_lower (fun _ => [1 # 2; 1 # 4; 3 # 4]%Q)
       stable_argsort round4_decimal no_int_of_str no_xid no_xid
       short_table (text_body "pilot")
     = ([Normalize; Vectorize; Rank], inl IndexError).
Proof.
  assert (Hbad : exists i, i ∈ top_indices stable_argsort [1 # 2; 1 # 4; 3 # 4]%Q
                           /\ (length (rows short_table) <= i)%nat).
  { exists 2%nat. split; [by left | simpl; lia]. }
  split; [reflexivity |]. split; [exact Hbad |].
  exact (recommend_jobs_short_table ascii_lower
           (fun _ => [1 # 2; 1 # 4; 3 # 4]%Q) stable_argsort round4_decimal
           no_int_of_str no_xid no_xid short_table
           [(py "text", VStr (py "pilot"))] (py "pilot") eq_refl Hbad).
Defined.

(** ** Request validation of the two POST handlers *)

Section Validation.

Variable lower : pystr -> pystr.
Variable similarity : pystr -> list Q.
Variable argsort : list Q -> list nat.
Variable round4 : Q -> Q.
Variable int_of_str : pystr -> res Z.
Variables xid_start xid_continue : N -> bool.
Variable job_metadata : DataFrame.
Variable predict_label : pystr -> res value.

Local Abbreviation recommend :=
  (recommend_jobs lower similarity argsort round4 int_of_str
     xid_start xid_continue job_metadata).
Local Abbreviation predict := (predict_category lower predict_label).

(** X9. A body that is a non-zero number, [NaN] or [true] passes
    [not data], and the membership test on it raises [TypeError]: both
    handlers end in an unhandled exception instead of the 400, before
    any normalization. *)
Theorem scalar_body_raises (data : value) :
  is_scalar_body data = true ->
  recommend data = ([], inl TypeError)
  /\ predict data = ([], inl TypeError).
Proof.
  unfold recommend_jobs, predict_category.
  destruct data as [| b | z | q | | s | l | d]; simpl; try done.
  - by intros ->.
  - by intros ->.
  - by intros ->.
Qed.

(** X10. When the key is present but its value is not a string
    ([null], a number, a list, an object), validation passes and
    [basic_preprocess] raises [AttributeError] on [.lower()]; in
    [predict_category] this happens before the [try], so neither
    handler answers with a response of its own. *)
Theorem non_string_field_raises (d : list (pystr * value)) (v : value) :
  is_str_value v = false ->
  (dict_get (py "text") d = Some v ->
   recommend (VDict d) = ([Normalize], inl AttributeError))
  /\ (dict_get (py "description") d = Some v ->
      predict (VDict d) = ([Normalize], inl AttributeError)).
Proof.
  intros Hv. split; intros Hd.
  - unfold recommend_jobs. destruct d as [| item d]; [done |].
    cbn [truthy negb]. unfold py_contains, py_get. rewrite Hd.
    rewrite bool_decide_eq_true_2 by eauto.
    unfold mbind, traced_bind, lift, call, call_basic_preprocess. simpl.
    by destruct v.
  - unfold predict_category. destruct d as [| item d]; [done |].
    cbn [truthy negb]. unfold py_contains, py_get. rewrite Hd.
    rewrite bool_decide_eq_true_2 by eauto.
    unfold mbind, traced_bind, lift, call, call_basic_preprocess. simpl.
    by destruct v.
Qed.

(** X11. [predict_category] answers 400 with
    [{"detail": "Missing 'description' in request body"}], and does
    nothing else, for every falsy body (none, [{}], [[]], the empty
    string, zero, [false]) and for every object without the key. *)
Theorem predict_category_missing_description (data : value) :
  truthy data = false
  \/ (exists d, data = VDict d /\ dict_get (py "description") d = None) ->
  predict data = ([], inr missing_description).
Proof.
  unfold predict_category. intros [-> | (d & -> & Hd)]; [done |].
  destruct d as [| item d]; [done |].
  cbn [truthy negb]. unfold py_contains. rewrite Hd.
  by rewrite bool_decide_eq_false_2 by (by intros [? ?]).
Qed.

Lemma predict_category_with_description (d : list (pystr * value)) s :
  dict_get (py "description") d = Some (VStr s) ->
  predict (VDict d)
  = ([Normalize; Vectorize],
     inr (match predict_label (basic_preprocess lower s) with
          | inr pred => Response 200 (VDict [(py "predicted_category", pred)])
          | inl _ => internal_server_error
          end)).
Proof.
  intros Hd. unfold predict_category. destruct d as [| item d]; [done |].
  cbn [truthy negb]. unfold py_contains, py_get. rewrite Hd.
  by rewrite bool_decide_eq_true_2 by eauto.
Qed.

(** X12. With a string under [description], [predict_category] always
    answers with a response: 200 with the predicted label when the
    vectorizer and the classifier succeed on the normalized text, and
    500 with [{"detail": "Internal Server Error"}] when anything inside
    the [try] raises. An empty description is not a missing one. *)
Theorem predict_category_outcome (d : list (pystr * value)) (s : pystr) :
  dict_get (py "description") d = Some (VStr s) ->
  (forall pred, predict_label (basic_preprocess lower s) = inr pred ->
     predict (VDict d)
     = ([Normalize; Vectorize],
        inr (Response 200 (VDict [(py "predicted_category", pred)]))))
  /\ (forall e, predict_label (basic_preprocess lower s) = inl e ->
        predict (VDict d)
        = ([Normalize; Vectorize], inr internal_server_error)).
Proof.
  intros Hd. rewrite (predict_category_with_description d s Hd).
  split; [intros pred -> | intros e ->]; done.
Qed.

(** X13. The prediction sees the description only through the
    normalizer: a description and its normalized form get the same
    answer. *)
Theorem predict_category_normalized (s : pystr) :
  (forall t, Forall az_or_space t -> lower t = t) ->
  predict (VDict [(py "description", VStr (basic_preprocess lower s))])
  = predict (VDict [(py "description", VStr s)]).
Proof.
  intros Hlower.
  rewrite (predict_category_with_description
             [(py "description", VStr (basic_preprocess lower s))]
             (basic_preprocess lower s) eq_refl).
  rewrite (predict_category_with_description
             [(py "description", VStr s)] s eq_refl).
  pose proof (basic_preprocess_shape lower s) as Hnf.
  rewrite (normal_form_fixed lower (basic_preprocess lower s)); [done | | done].
  apply Hlower. by destruct Hnf.
Qed.

End Validation.

Lemma scalar_body_raises_witness :
  is_scalar_body (VFloat (3 # 2)) = true
  /\ recommend_jobs ascii_lower (fun _ => sample_similarities) stable_argsort
       round4_decimal no_int_of_str no_xid no_xid sample_jobs (VFloat (3 # 2))
     = ([], inl TypeError)
  /\ predict_category ascii_lower sample_predict (VFloat (3 # 2))
     = ([], inl TypeError).
Proof.
  split; [reflexivity |].
  exact (scalar_body_raises ascii_lower (fun _ => sample_similarities)
           stable_argsort round4_decimal no_int_of_str no_xid no_xid
           sample_jobs sample_predict (VFloat (3 # 2)) eq_refl).
Defined.

Lemma non_string_field_raises_witness :
  let d := [(py "text", VInt 42); (py "description", VNone)] in
  is_str_value (VInt 42) = false
  /\ is_str_value VNone = false
  /\ recommend_jobs ascii_lower (fun _ => sample_similarities) stable_argsort
       round4_decimal no_int_of_str no_xid no_xid sample_jobs (VDict d)
     = ([Normalize], inl AttributeError)
  /\ predict_category ascii_lower sample_predict (VDict d)
     = ([Normalize], inl AttributeError).
Proof.
  intros d. split; [reflexivity |]. split; [reflexivity |]. split.
  - exact (proj1 (non_string_field_raises ascii_lower
                    (fun _ => sample_similarities) stable_argsort
                    round4_decimal no_int_of_str no_xid no_xid sample_jobs
                    sample_predict d (VInt 42) eq_refl) eq_refl).
  - exact (proj2 (non_string_field_raises ascii_lower
                    (fun _ => sample_similarities) stable_argsort
                    round4_decimal no_int_of_str no_xid no_xid sample_jobs
                    sample_predict d VNone eq_refl) eq_refl).
Defined.

Lemma predict_category_missing_description_witness :
  (truthy (VDict [(py "text", VStr (py "chef"))]) = false
   \/ exists d, VDict [(py "text", VStr (py "chef"))] = VDict d
                /\ dict_get (py "description") d = None)
  /\ predict_category ascii_lower sample_predict
       (VDict [(py "text", VStr (py "chef"))])
     = ([], inr missing_description).
Proof.
  assert (H : truthy (VDict [(py "text", VStr (py "chef"))]) = false
              \/ exists d, VDict [(py "text", VStr (py "chef"))] = VDict d
                           /\ dict_get (py "description") d = None).
  { right. by eexists. }
  split; [exact H |].
  exact (predict_category_missing_description ascii_lower sample_predict _ H).
Defined.

Lemma predict_category_outcome_witness :
  dict_get (py "description") [(py "description", VStr (py "Builds APIs"))]
  = Some (VStr (py "Builds APIs"))
  /\ sample_predict (basic_preprocess ascii_lower (py "Builds APIs"))
     = inr (VStr (py "Engineering"))
  /\ predict_category ascii_lower sample_predict
       (description_body "Builds APIs")
     = ([Normalize; Vectorize],
        inr (Response 200
               (VDict [(py "predicted_category", VStr (py "Engineering"))]))).
Proof.
  split; [reflexivity |]. split; [reflexivity |].
  exact (proj1 (predict_category_outcome ascii_lower sample_predict
                  [(py "description", VStr (py "Builds APIs"))]
                  (py "Builds APIs") eq_refl)
           (VStr (py "Engineering")) eq_refl).
Defined.

Lemma predict_category_normalized_witness :
  (forall t, Forall az_or_space t -> ascii_lower t = t)
  /\ predict_category ascii_lower sample_predict
       (VDict [(py "description",
                VStr (basic_preprocess ascii_lower (py "Builds  APIs!")))])
     = predict_category ascii_lower sample_predict
         (VDict [(py "description", VStr (py "Builds  APIs!"))]).
Proof.
  split; [exact ascii_lower_fixes_normal |].
  exact (predict_category_normalized ascii_lower sample_predict
           (py "Builds  APIs!") ascii_lower_fixes_normal).
Defined.

Example predict_category_empty_description :
  predict_category ascii_lower sample_predict
    (VDict [(py "description", VStr [])])
  = ([Normalize; Vectorize], inr internal_server_error).
Proof. reflexivity. Qed.

(** ** The loader *)

Lemma rename_absent (old new : pystr) (cols : list pystr) :
  old ∉ cols ->
  (fun c => if bool_decide (c = old) then new else c) <$> cols = cols.
Proof.
  induction cols as [| c cols IH]; [done |].
  rewrite not_elem_of_cons. intros [Hne Hcols]. rewrite fmap_cons.
  rewrite bool_decide_eq_false_2 by done. by rewrite IH.
Qed.

Lemma numbered_rows_lookup (rows : list (list value)) k :
  zip_with (fun i row => VInt (Z.of_nat i) :: row) (seq 0 (length rows)) rows
    !! k
  = (fun row => VInt (Z.of_nat k) :: row) <$> rows !! k.
Proof.
  rewrite lookup_zip_with.
  destruct (rows !! k) as [row |] eqn:Hk.
  - rewrite lookup_seq_lt by (by eapply lookup_lt_Some). done.
  - rewrite lookup_seq_ge by (by apply lookup_ge_None). done.
Qed.

Lemma numbered_rows_elem_of (rows : list (list value)) row' :
  row' ∈ zip_with (fun i row => VInt (Z.of_nat i) :: row)
           (seq 0 (length rows)) rows ->
  exists k row, rows !! k = Some row /\ row' = VInt (Z.of_nat k) :: row.
Proof.
  intros Hin. apply list_elem_of_lookup in Hin as [k Hk].
  rewrite numbered_rows_lookup in Hk.
  destruct (rows !! k) as [row |] eqn:Hrow; [| done].
  injection Hk as <-. by exists k, row.
Qed.

(** What [ensure_id] returns, case by case. *)
Lemma ensure_id_cases (df : DataFrame) :
  let numbered :=
    zip_with (fun i row => VInt (Z.of_nat i) :: row)
      (seq 0 (length (rows df))) (rows df) in
  ((py "id" ∈ columns df) /\ ensure_id df = inr df)
  \/ ((py "id" ∉ columns df) /\ (py "index" ∉ columns df)
      /\ ensure_id df
         = inr {| columns := py "id" :: columns df; rows := numbered |})
  \/ ((py "id" ∉ columns df) /\ (py "index" ∈ columns df)
      /\ (py "level_0" ∉ columns df)
      /\ ensure_id df
         = inr {| columns :=
                    py "level_0"
                    :: ((fun c => if bool_decide (c = py "index")
                                  then py "id" else c) <$> columns df);
                  rows := numbered |})
  \/ ((py "id" ∉ columns df) /\ (py "index" ∈ columns df)
      /\ (py "level_0" ∈ columns df)
      /\ ensure_id df = inl ValueError).
Proof.
  intros numbered. unfold ensure_id, reset_index.
  destruct (decide (py "id" ∈ columns df)) as [Hid | Hid].
  { left. by rewrite bool_decide_eq_true_2. }
  right. rewrite (bool_decide_eq_false_2 _ Hid).
  destruct (decide (py "index" ∈ columns df)) as [Hindex | Hindex].
  - right. rewrite (bool_decide_eq_true_2 _ Hindex).
    destruct (decide (py "level_0" ∈ columns df)) as [Hlevel | Hlevel].
    + right. by rewrite (bool_decide_eq_true_2 _ Hlevel).
    + left. by rewrite (bool_decide_eq_false_2 _ Hlevel).
  - left. rewrite !(bool_decide_eq_false_2 _ Hindex).
    repeat split; [done | done |]. simpl. unfold rename_column. simpl.
    by rewrite (rename_absent _ _ _ Hindex).
Qed.

(** X14. The loader fails on the [id] column in one case only: the table
    has no column [id] but has both a column [index] and a column
    [level_0]; [reset_index] then has no free label and raises
    [ValueError]. *)
Theorem ensure_id_fails_iff (df : DataFrame) :
  (exists e, ensure_id df = inl e)
  <-> (py "id" ∉ columns df) /\ (py "index" ∈ columns df)
      /\ (py "level_0" ∈ columns df).
Proof.
  destruct (ensure_id_cases df)
    as [[Hid Heq] | [(Hid & Hindex & Heq) | [(Hid & Hindex & Hlevel & Heq)
       | (Hid & Hindex & Hlevel & Heq)]]]; rewrite Heq.
  - split; [by intros [e ?] | tauto].
  - split; [by intros [e ?] | tauto].
  - split; [by intros [e ?] | tauto].
  - split; [done | by eexists].
Qed.

Lemma ensure_id_has_id (df df' : DataFrame) :
  ensure_id df = inr df' -> py "id" ∈ columns df'.
Proof.
  destruct (ensure_id_cases df)
    as [[Hid Heq] | [(Hid & Hindex & Heq) | [(Hid & Hindex & Hlevel & Heq)
       | (Hid & Hindex & Hlevel & Heq)]]]; rewrite Heq; intros ?;
    simplify_eq; simpl.
  - done.
  - by left.
  - right. apply list_elem_of_fmap. exists (py "index").
    by rewrite bool_decide_eq_true_2.
Qed.

Lemma numbered_rows_aligned (rows : list (list value)) m :
  Forall (fun row => length row = m) rows ->
  Forall (fun row => length row = S m)
    (zip_with (fun i row => VInt (Z.of_nat i) :: row)
       (seq 0 (length rows)) rows).
Proof.
  intros Hrows. apply Forall_forall. intros row' Hin.
  apply numbered_rows_elem_of in Hin as (k & row & Hk & ->). simpl.
  rewrite Forall_forall in Hrows. f_equal. apply Hrows.
  by eapply list_elem_of_lookup_2.
Qed.

Lemma frame_ok_intro (df : DataFrame) :
  NoDup (columns df) ->
  Forall (fun row => length row = length (columns df)) (rows df) ->
  py "id" ∈ columns df ->
  frame_ok df = true.
Proof.
  intros Hnd Hrows Hid. unfold frame_ok.
  rewrite !andb_true_iff, !bool_decide_eq_true. repeat split; [done | | done].
  apply forallb_forall. intros row Hin. apply Nat.eqb_eq.
  rewrite Forall_forall in Hrows. by apply Hrows, list_elem_of_In.
Qed.

Lemma ensure_id_frame_ok (df df' : DataFrame) :
  NoDup (columns df) ->
  Forall (fun row => length row = length (columns df)) (rows df) ->
  ensure_id df = inr df' ->
  frame_ok df' = true.
Proof.
  intros Hnd Hrows Hok. pose proof (ensure_id_has_id _ _ Hok) as Hhas.
  apply frame_ok_intro; [| | done]; clear Hhas.
  - destruct (ensure_id_cases df)
      as [[Hid Heq] | [(Hid & Hindex & Heq) | [(Hid & Hindex & Hlevel & Heq)
         | (Hid & Hindex & Hlevel & Heq)]]]; rewrite Heq in Hok;
      simplify_eq; simpl; [done | by constructor |].
    constructor.
    + intros Hin. apply list_elem_of_fmap in Hin as (c & Heqc & Hc).
      case_bool_decide; [done | by subst].
    + apply NoDup_fmap_2_strong; [| done].
      intros x y Hx Hy. repeat case_bool_decide; congruence.
  - destruct (ensure_id_cases df)
      as [[Hid Heq] | [(Hid & Hindex & Heq) | [(Hid & Hindex & Hlevel & Heq)
         | (Hid & Hindex & Hlevel & Heq)]]]; rewrite Heq in Hok;
      simplify_eq; simpl; [done | |].
    + by apply numbered_rows_aligned.
    + rewrite length_fmap. by apply numbered_rows_aligned.
Qed.

(** X15. From a table with distinct labels and one cell per column in
    every row, whatever [ensure_id] returns is a well-formed table with
    a column [id]: the lookups of the handlers find it. *)
Theorem ensure_id_well_formed (df df' : DataFrame) :
  NoDup (columns df) ->
  Forall (fun row => length row = length (columns df)) (rows df) ->
  ensure_id df = inr df' ->
  frame_ok df' = true.
Proof. apply ensure_id_frame_ok. Qed.

Lemma ensure_id_well_formed_witness :
  NoDup (columns indexed_table)
  /\ Forall (fun row => length row = length (columns indexed_table))
       (rows indexed_table)
  /\ (exists df', ensure_id indexed_table = inr df' /\ frame_ok df' = true).
Proof.
  assert (Hnd : NoDup (columns indexed_table))
    by (apply (bool_decide_eq_true_1 _); by vm_compute).
  assert (Hrows : Forall (fun row => length row = length (columns indexed_table))
                    (rows indexed_table)) by (repeat constructor).
  split; [exact Hnd |]. split; [exact Hrows |].
  eexists. split; [reflexivity |].
  exact (ensure_id_well_formed indexed_table _ Hnd Hrows eq_refl).
Defined.

Lemma ensure_id_fails_iff_witness :
  (exists e, ensure_id clashing_table = inl e)
  /\ (py "id" ∉ columns clashing_table)
  /\ (py "index" ∈ columns clashing_table)
  /\ (py "level_0" ∈ columns clashing_table).
Proof.
  assert (Hfails : exists e, ensure_id clashing_table = inl e)
    by (by exists ValueError).
  split; [exact Hfails |].
  exact (proj1 (ensure_id_fails_iff clashing_table) Hfails).
Defined.

Lemma col_index_cons name c cols :
  col_index name (c :: cols)
  = if decide (c = name) then inr 0%nat
    else match col_index name cols with
         | inr k => inr (S k)
         | inl e => inl e
         end.
Proof.
  unfold col_index. simpl. destruct (decide (c = name)); [done |].
  by destruct (list_find (fun c0 => c0 = name) cols) as [[k c0] |].
Qed.

Lemma col_index_renamed (cols : list pystr) :
  py "id" ∉ cols ->
  col_index (py "id")
    ((fun c => if bool_decide (c = py "index") then py "id" else c) <$> cols)
  = col_index (py "index") cols.
Proof.
  induction cols as [| c cols IH]; [done |].
  rewrite not_elem_of_cons. intros [Hne Hcols].
  rewrite fmap_cons, !col_index_cons, (IH Hcols).
  case_bool_decide as Hc.
  - by rewrite !decide_True.
  - by rewrite !decide_False.
Qed.

Lemma filter_singleton {A} (g : A -> bool) (l : list A) i x :
  l !! i = Some x -> g x = true ->
  (forall j y, l !! j = Some y -> g y = true -> j = i) ->
  List.filter g l = [x].
Proof.
  revert i. induction l as [| a l IH]; intros i Hi Hx Huniq; [done |].
  simpl. destruct i as [| i]; simpl in Hi.
  - injection Hi as ->. rewrite Hx. f_equal.
    clear IH. induction l as [| b l IHl]; [done |]. simpl.
    destruct (g b) eqn:Hb.
    + by specialize (Huniq 1%nat b eq_refl Hb).
    + apply IHl. intros [| j] y Hj Hy; [done |].
      by specialize (Huniq (S (S j)) y Hj Hy).
  - destruct (g a) eqn:Ha.
    + by specialize (Huniq 0%nat a eq_refl Ha).
    + apply (IH i); [done | done |]. intros j y Hj Hy.
      specialize (Huniq (S j) y Hj Hy). lia.
Qed.

Lemma filter_none {A} (g : A -> bool) (l : list A) :
  (forall y, y ∈ l -> g y = false) -> List.filter g l = [].
Proof.
  induction l as [| a l IH]; intros Hall; [done |]. simpl.
  rewrite (Hall a) by (by left). apply IH. intros y Hy. apply Hall. by right.
Qed.

(** X16. When the table has neither a column [id] nor a column [index],
    the loader numbers the rows: afterwards [get_job_detail] answers the
    position [k] of a row with that row, [id] first, and answers 404 to
    every other integer. *)
Theorem synthesized_ids_are_positions (df : DataFrame) :
  py "id" ∉ columns df -> py "index" ∉ columns df ->
  NoDup (columns df) ->
  Forall (fun row => length row = length (columns df)) (rows df) ->
  exists df',
    ensure_id df = inr df'
    /\ (forall k row, rows df !! k = Some row ->
          get_job_detail df' (Z.of_nat k)
          = Response 200
              (VDict ((py "id", VInt (Z.of_nat k)) :: zip (columns df) row)))
    /\ (forall z, (z < 0 \/ Z.of_nat (length (rows df)) <= z)%Z ->
          get_job_detail df' z = Response 404 (detail "Job not found")).
Proof.
  intros Hid Hindex Hnd Hrows.
  destruct (ensure_id_cases df)
    as [[Hid' _] | [(_ & _ & Heq) | [(_ & Hindex' & _)
       | (_ & Hindex' & _)]]]; try done.
  eexists. split; [exact Heq |].
  pose proof (ensure_id_frame_ok _ _ Hnd Hrows Heq) as Hok.
  set (df' := {| columns := py "id" :: columns df; rows := _ |}) in *.
  assert (Hmatch : forall z j row,
            id_matches df' z (VInt (Z.of_nat j) :: row) = (Z.of_nat j =? z)%Z).
  { intros z j row. unfold id_matches, id_cell, df'. cbn [columns].
    rewrite col_index_cons. by rewrite decide_True. }
  split.
  - intros k row Hk.
    destruct (get_job_detail_found df' (Z.of_nat k)
                (VInt (Z.of_nat k) :: row) [] Hok) as [-> _]; [| done].
    apply (filter_singleton _ _ k).
    + unfold df'. cbn [rows]. by rewrite numbered_rows_lookup, Hk.
    + rewrite Hmatch. apply Z.eqb_refl.
    + intros j y Hj Hy. unfold df' in Hj. cbn [rows] in Hj.
      rewrite numbered_rows_lookup in Hj.
      destruct (rows df !! j) as [rowj |]; [| done]. injection Hj as <-.
      rewrite Hmatch in Hy. apply Z.eqb_eq in Hy. lia.
  - intros z Hz. apply get_job_detail_absent; [done |].
    apply filter_none. intros y Hy. unfold df' in Hy. cbn [rows] in Hy.
    apply numbered_rows_elem_of in Hy as (j & row & Hj & ->).
    rewrite Hmatch. apply Z.eqb_neq. apply lookup_lt_Some in Hj. lia.
Qed.

(** X17. When the table has a column [index] but no column [id], the
    rename hits that column: the [id] the lookup compares is the cell
    the file had under [index], and the row positions end up in a new
    first column [level_0]. *)
Theorem index_column_becomes_id (df : DataFrame) :
  py "id" ∉ columns df -> py "index" ∈ columns df ->
  py "level_0" ∉ columns df ->
  exists df',
    ensure_id df = inr df'
    /\ columns df'
       = py "level_0"
         :: ((fun c => if bool_decide (c = py "index") then py "id" else c)
             <$> columns df)
    /\ forall k row,
         rows df !! k = Some row ->
         rows df' !! k = Some (VInt (Z.of_nat k) :: row)
         /\ forall z,
              id_matches df' z (VInt (Z.of_nat k) :: row)
              = match col_index (py "index") (columns df) with
                | inr j => cell_eq_int j z row
                | inl _ => false
                end.
Proof.
  intros Hid Hindex Hlevel.
  destruct (ensure_id_cases df)
    as [[Hid' _] | [(_ & Hindex' & _) | [(_ & _ & _ & Heq)
       | (_ & _ & Hlevel' & _)]]]; try done.
  eexists. split; [exact Heq |]. split; [done |].
  intros k row Hk. cbn [rows]. split.
  - by rewrite numbered_rows_lookup, Hk.
  - intros z. unfold id_matches, id_cell. cbn [columns].
    rewrite col_index_cons, decide_False by done.
    rewrite (col_index_renamed _ Hid).
    by destruct (col_index (py "index") (columns df)).
Qed.

Lemma plain_table_aligned :
  NoDup (columns plain_table)
  /\ Forall (fun row => length row = length (columns plain_table))
       (rows plain_table).
Proof.
  split; [apply (bool_decide_eq_true_1 _); by vm_compute | repeat constructor].
Qed.

Lemma synthesized_ids_are_positions_witness :
  (py "id" ∉ columns plain_table)
  /\ (py "index" ∉ columns plain_table)
  /\ exists df',
       ensure_id plain_table = inr df'
       /\ get_job_detail df' 1
          = Response 200
              (VDict [ (py "id", VInt 1); (py "Job Title", VStr (py "Chef"));
                       (py "Job Description", VStr (py "Runs the kitchen")) ])
       /\ get_job_detail df' 3 = Response 404 (detail "Job not found").
Proof.
  assert (Hid : py "id" ∉ columns plain_table)
    by (apply (bool_decide_eq_true_1 _); by vm_compute).
  assert (Hindex : py "index" ∉ columns plain_table)
    by (apply (bool_decide_eq_true_1 _); by vm_compute).
  split; [exact Hid |]. split; [exact Hindex |].
  destruct (synthesized_ids_are_positions plain_table Hid Hindex
              (proj1 plain_table_aligned) (proj2 plain_table_aligned))
    as (df' & Heq & Hfound & Hmissing).
  exists df'. split; [exact Heq |]. split.
  - exact (Hfound 1%nat _ eq_refl).
  - apply Hmissing. right. simpl. lia.
Defined.

Lemma index_column_becomes_id_witness :
  (py "id" ∉ columns indexed_table)
  /\ (py "index" ∈ columns indexed_table)
  /\ (py "level_0" ∉ columns indexed_table)
  /\ exists df',
       ensure_id indexed_table = inr df'
       /\ columns df' = [py "level_0"; py "id"; py "Job Title"]
       /\ rows df' !! 1%nat = Some [VInt 1; VInt 50; VStr (py "Baker")]
       /\ id_matches df' 50 [VInt 1; VInt 50; VStr (py "Baker")] = true.
Proof.
  assert (Hid : py "id" ∉ columns indexed_table)
    by (apply (bool_decide_eq_true_1 _); by vm_compute).
  assert (Hindex : py "index" ∈ columns indexed_table) by (by left).
  assert (Hlevel : py "level_0" ∉ columns indexed_table)
    by (apply (bool_decide_eq_true_1 _); by vm_compute).
  repeat (split; [assumption |]).
  destruct (index_column_becomes_id indexed_table Hid Hindex Hlevel)
    as (df' & Heq & Hcols & Hrows).
  exists df'. split; [exact Heq |]. split; [exact Hcols |].
  destruct (Hrows 1%nat [VInt 50; VStr (py "Baker")] eq_refl) as [Hrow Hmatch].
  split; [exact Hrow |]. by rewrite Hmatch.
Defined.

(** ** Start of the process *)

Section StartupFacts.

Variable download_artifacts : pystr -> res DataFrame.



(** X19. When the process starts serving, a bucket name was configured,
    exactly one download from that bucket was made, and the table that
    is served has a column [id]; a failed download or a failed
    [ensure_id] never leaves a table behind. *)
Theorem load_artifacts_serving (environ : gmap pystr pystr)
    (trace : list io) (df : DataFrame) :
  load_artifacts download_artifacts environ = (trace, Serving df) ->
  py "id" ∈ columns df
  /\ exists bucket raw,
       environ !! py "BUCKET_NAME" = Some bucket /\ bucket <> []
       /\ trace = [Download bucket]
       /\ download_artifacts bucket = inr raw
       /\ ensure_id raw = inr df.
Proof.
  unfold load_artifacts.
  destruct (environ !! py "BUCKET_NAME") as [bucket |]; [| done].
  case_bool_decide as Hbucket; [done |].
  destruct (download_artifacts bucket) as [e | raw] eqn:Hraw; [done |].
  simpl. destruct (ensure_id raw) as [e | df'] eqn:Hensure; [done |].
  intros [= <- <-]. split; [by eapply ensure_id_has_id |].
  by exists bucket, raw.
Qed.

End StartupFacts.


Lemma load_artifacts_serving_witness :
  exists trace df,
    load_artifacts sample_download (<[py "BUCKET_NAME" := py "jobmate"]> ∅)
    = (trace, Serving df)
    /\ py "id" ∈ columns df.
Proof.
  assert (Hload : load_artifacts sample_download
                    (<[py "BUCKET_NAME" := py "jobmate"]> ∅)
                  = ([Download (py "jobmate")],
                     Serving {| columns := py "id" :: columns plain_table;
                                rows := zip_with
                                  (fun i row => VInt (Z.of_nat i) :: row)
                                  (seq 0 (length (rows plain_table)))
                                  (rows plain_table) |})).
  { unfold load_artifacts. rewrite lookup_insert_eq. reflexivity. }
  eexists _, _. split; [exact Hload |].
  exact (proj1 (load_artifacts_serving sample_download _ _ _ Hload)).
Defined.

(** ** Job lookup: the error path and unique ids *)




(** X21. When no two rows share an [id], every row of a well-formed
    table is what [get_job_detail] returns for its own [id]: what was
    loaded can be fetched back. *)
Theorem get_job_detail_round_trip (job_metadata : DataFrame)
    (i : nat) (row : list value) (job_id : Z) :
  frame_ok job_metadata = true ->
  rows job_metadata !! i = Some row ->
  id_matches job_metadata job_id row = true ->
  (forall j other, rows job_metadata !! j = Some other ->
     id_matches job_metadata job_id other = true -> j = i) ->
  get_job_detail job_metadata job_id
  = Response 200 (VDict (zip (columns job_metadata) row)).
Proof.
  intros Hok Hrow Hmatch Huniq.
  destruct (get_job_detail_found job_metadata job_id row [] Hok) as [-> _];
    [| done].
  by apply (filter_singleton _ _ i).
Qed.

Lemma get_job_detail_round_trip_witness :
  frame_ok short_table = true
  /\ rows short_table !! 1%nat = Some [VInt 2; VStr (py "Baker")]
  /\ id_matches short_table 2 [VInt 2; VStr (py "Baker")] = true
  /\ get_job_detail short_table 2
     = Response 200
         (VDict [(py "id", VInt 2); (py "Job Title", VStr (py "Baker"))]).
Proof.
  repeat (split; [reflexivity |]).
  apply (get_job_detail_round_trip short_table 1%nat
           [VInt 2; VStr (py "Baker")] 2 eq_refl eq_refl eq_refl).
  intros [| [| j]] other Hj Hother; [| done |].
  - injection Hj as <-. discriminate Hother.
  - simpl in Hj. by rewrite lookup_nil in Hj.
Defined.

(** ** The category list: duplicates and letter case *)

(** X22. [get_all_categories] does not remove duplicates: for any
    [classes_] the list returned is an ascending rearrangement of it,
    with every label as often as [classes_] has it. *)
Theorem get_all_categories_permutation (classes_ : list pystr) :
  exists categories,
    get_all_categories classes_
    = Response 200 (VDict [(py "categories", VList (VStr <$> categories))])
    /\ categories ≡ₚ classes_
    /\ length categories = length classes_
    /\ StronglySorted lex_le categories
    /\ (NoDup categories <-> NoDup classes_).
Proof.
  exists (py_sorted classes_). unfold py_sorted.
  split; [done |]. split; [apply merge_sort_Permutation |].
  split; [by rewrite merge_sort_Permutation |].
  split; [apply StronglySorted_merge_sort; apply _ |].
  by rewrite merge_sort_Permutation.
Qed.

Lemma lex_leb_upper_lower a b :
  starts_upper a -> starts_lower b -> lex_leb b a = false.
Proof.
  intros (x & a' & -> & Hx) (y & b' & -> & Hy). simpl.
  assert ((y <? x) = false) as -> by (apply N.ltb_ge; lia).
  assert ((y =? x) = false) as -> by (apply N.eqb_neq; lia).
  done.
Qed.

(** X23. The order is by code point, so letter case counts: in the list
    returned, every label that starts with an ASCII capital stands
    before every label that starts with a lower-case ASCII letter. *)
Theorem get_all_categories_capitals_first (classes_ : list pystr)
    (i j : nat) (a b : pystr) :
  starts_upper a -> starts_lower b ->
  py_sorted classes_ !! i = Some a ->
  py_sorted classes_ !! j = Some b ->
  get_all_categories classes_
  = Response 200
      (VDict [(py "categories", VList (VStr <$> py_sorted classes_))])
  /\ (i < j)%nat.
Proof.
  intros Ha Hb Hi Hj. split; [done |].
  destruct (decide (i < j)%nat) as [| Hge]; [done |]. exfalso.
  pose proof (lex_leb_upper_lower a b Ha Hb) as Hfalse.
  destruct (decide (i = j)) as [-> | Hne].
  - rewrite Hi in Hj. injection Hj as ->.
    by rewrite lex_leb_refl in Hfalse.
  - assert (lex_le b a) as Hle.
    { eapply (StronglySorted_lookup_lt lex_le _ j i b a);
        [apply StronglySorted_merge_sort; apply _ | lia | exact Hj | exact Hi]. }
    unfold lex_le in Hle. congruence.
Qed.

Lemma get_all_categories_capitals_first_witness :
  starts_upper (py "Sales") /\ starts_lower (py "design")
  /\ py_sorted [py "design"; py "Sales"] !! 0%nat = Some (py "Sales")
  /\ py_sorted [py "design"; py "Sales"] !! 1%nat = Some (py "design")
  /\ (0 < 1)%nat.
Proof.
  assert (Ha : starts_upper (py "Sales")).
  { eexists _, _. split; [reflexivity | by vm_compute]. }
  assert (Hb : starts_lower (py "design")).
  { eexists _, _. split; [reflexivity | by vm_compute]. }
  split; [exact Ha |]. split; [exact Hb |].
  split; [reflexivity |]. split; [reflexivity |].
  exact (proj2 (get_all_categories_capitals_first [py "design"; py "Sales"]
                  0%nat 1%nat _ _ Ha Hb eq_refl eq_refl)).
Defined.

(** ** The configured token *)

(** X24. Once [API_TOKEN] is set, to any string, the empty one included,
    a request to a protected route passes the gate exactly when its
    [Authorization] header is ["Bearer "] followed by that string; in
    particular ["Bearer default_token"] is refused unless the variable
    is set to ["default_token"] itself. *)
Theorem configured_token_only (environ : gmap pystr pystr)
    (token : pystr) (r : request) :
  environ !! py "API_TOKEN" = Some token ->
  method r <> py "OPTIONS" ->
  endpoint r <> Some (py "root") ->
  endpoint r <> Some (py "healthcheck") ->
  (check_auth (API_TOKEN environ) r = None
   <-> authorization r = Some (py "Bearer " ++ token))
  /\ (token <> py "default_token" ->
      authorization r = Some (py "Bearer default_token") ->
      check_auth (API_TOKEN environ) r = Some unauthorized).
Proof.
  intros Henv Hm Hroot Hhealth. unfold API_TOKEN, getenv. rewrite Henv. simpl.
  rewrite check_auth_cases.
  rewrite (bool_decide_eq_false_2 _ Hm).
  rewrite bool_decide_eq_false_2 by tauto.
  unfold bearer. split.
  - case_bool_decide as Hauth; [done |]. split; [done | by intros ?].
  - intros Hne Hauth. rewrite bool_decide_eq_false_2; [done |].
    rewrite Hauth. intros [= Heq]. by apply Hne.
Qed.

Lemma configured_token_only_witness :
  let environ : gmap pystr pystr := <[py "API_TOKEN" := []]> ∅ in
  let r := sample_request [(py "Authorization", py "Bearer default_token")] in
  environ !! py "API_TOKEN" = Some []
  /\ method r <> py "OPTIONS"
  /\ endpoint r <> Some (py "root")
  /\ endpoint r <> Some (py "healthcheck")
  /\ check_auth (API_TOKEN environ) r = Some unauthorized.
Proof.
  intros environ r.
  assert (Henv : environ !! py "API_TOKEN" = Some [])
    by apply lookup_insert_eq.
  assert (Hm : method r <> py "OPTIONS") by (by vm_compute).
  assert (Hroot : endpoint r <> Some (py "root")) by (by vm_compute).
  assert (Hhealth : endpoint r <> Some (py "healthcheck")) by (by vm_compute).
  repeat (split; [assumption |]).
  apply (configured_token_only environ [] r Henv Hm Hroot Hhealth);
    [by vm_compute | reflexivity].
Defined.
